(** * stackexchange/tables.py: schema descriptors and the streaming XML loader

    A shallow embedding of [Table] (create_if_not_exists, parse_row,
    insert_from_xml with its nested generator pull_rows) and of the three
    table declarations, followed by the properties of the loader.

    Python strings are [string]s whose characters are code points below 256.
    An [OrderedDict] is an association list kept in insertion order, the
    attribute dict of an XML element is a [gmap string string]. *)

From Stdlib Require Import ZArith Ascii String.
From stdpp Require Import base option list strings gmap.

Local Open Scope string_scope.
Local Open Scope Z_scope.

(** ** Python built-ins used by the module *)

Module Py.

(** [str.isspace] on one code point below 256. *)
Definition isspace (c : ascii) : bool :=
  let n := N_of_ascii c in
  ((9 <=? n) && (n <=? 13) || (28 <=? n) && (n <=? 32)
   || (n =? 133) || (n =? 160))%N.

Fixpoint lstrip (s : string) : string :=
  match s with
  | String c s' => if isspace c then lstrip s' else s
  | EmptyString => EmptyString
  end.

(** Drops the trailing white space: a character is kept when something
    that is not white space follows it. *)
Fixpoint rstrip (s : string) : string :=
  match s with
  | EmptyString => EmptyString
  | String c s' =>
      match rstrip s' with
      | EmptyString => if isspace c then EmptyString else String c EmptyString
      | r => String c r
      end
  end.

(** [s.strip()] *)
Definition strip (s : string) : string := rstrip (lstrip s).

(** [s.startswith(p)] *)
Definition startswith (s p : string) : bool := String.prefix p s.

(** [sep.join(l)] *)
Definition join (sep : string) (l : list string) : string := String.concat sep l.

Definition digit (c : ascii) : option Z :=
  let n := N_of_ascii c in
  if ((48 <=? n) && (n <=? 57))%N then Some (Z.of_N n - 48) else None.

(** The digits of an integer literal, most significant first; a single
    underscore may separate two digits. [acc] is the value read so far and
    [us] tells that the previous character was an underscore. *)
Fixpoint digits (acc : Z) (us : bool) (s : string) : option Z :=
  match s with
  | EmptyString => if us then None else Some acc
  | String c s' =>
      match digit c with
      | Some d => digits (10 * acc + d) false s'
      | None =>
          if (N_of_ascii c =? 95)%N
          then (if us then None else
                  match s' with
                  | EmptyString => None
                  | _ => digits acc true s'
                  end)
          else None
      end
  end.

Definition unsigned (s : string) : option Z :=
  match s with
  | EmptyString => None
  | String c s' =>
      match digit c with
      | Some d => digits d false s'
      | None => None
      end
  end.

(** [int(s)] for a string argument, base 10: surrounding white space is
    dropped, one sign is allowed; [None] stands for [ValueError]. *)
Definition int (s : string) : option Z :=
  match strip s with
  | String "+" s' => unsigned s'
  | String "-" s' => Z.opp <$> unsigned s'
  | s' => unsigned s'
  end.

End Py.

(** ** Data model *)

(** A scalar bound to a column: [None], an [int] or a [str]. *)
Inductive value : Type :=
| VNone
| VInt (n : Z)
| VStr (s : string).

(** The [OrderedDict] that [parse_row] builds: internal column name to value,
    in insertion order. *)
Definition row : Type := list (string * value).

(** [vals[k] = v] on an [OrderedDict]: an existing key keeps its place, a new
    key goes to the end. *)
Fixpoint od_set (k : string) (v : value) (d : row) : row :=
  match d with
  | [] => [(k, v)]
  | (k', v') :: d' =>
      if String.eqb k k' then (k, v) :: d' else (k', v') :: od_set k v d'
  end.

(** [list(row.values())] *)
Definition values (r : row) : list value := map snd r.

(** [class Table]: [schema] maps the internal column name to the pair of the
    source attribute (or [None]) and the storage type. *)
Record Table : Type := mkTable {
  name : string;
  schema : list (string * (option string * string));
  constraints : list string
}.

(** The exceptions that travel through the module. [Error] is any
    [sqlite3.Error] that is not an [IntegrityError]; [ParseError] is raised by
    [ET.fromstring], [ValueError] by [int], [StopIteration] by [next]. *)
Inductive exn : Type :=
| StopIteration
| ParseError
| ValueError
| IntegrityError
| Error (msg : string).

Inductive res (A : Type) : Type :=
| Ok (a : A)
| Raise (e : exn).
Arguments Ok {A} a.
Arguments Raise {A} e.

(** ** Table.create_if_not_exists: the statement it sends *)



(** ** Table.parse_row *)

(** The loop over [self.schema.items()], with [vals] built so far. *)
Fixpoint parse_row_items (items : list (string * (option string * string)))
    (attrib : gmap string string) (vals : row) : res row :=
  match items with
  | [] => Ok vals
  | (col, (attr, typ)) :: items' =>
      match attr ≫= (attrib !!.) with
      | Some v =>
          if Py.startswith typ "INTEGER" then
            match Py.int v with
            | Some n => parse_row_items items' attrib (od_set col (VInt n) vals)
            | None => Raise ValueError
            end
          else parse_row_items items' attrib (od_set col (VStr v) vals)
      | None => parse_row_items items' attrib (od_set col VNone vals)
      end
  end.

Definition parse_row (self : Table) (attrib : gmap string string) : res row :=
  parse_row_items (schema self) attrib [].

(** ** The three tables of the module *)

Definition sites : Table := mkTable "sites"
  [ ("id",             (Some "Id",           "INTEGER PRIMARY KEY"));
    ("url",            (Some "Url",          "TEXT"));
    ("tiny_name",      (Some "TinyName",     "TEXT"));
    ("long_name",      (Some "LongName",     "TEXT"));
    ("name",           (Some "Name",         "TEXT"));
    ("parent_id",      (Some "ParentId",     "INTEGER"));
    ("tagline",        (Some "Tagline",      "TEXT"));
    ("badge_icon_url", (Some "BadgeIconUrl", "TEXT")) ]
  [].

Definition posts : Table := mkTable "posts"
  [ ("id",                 (Some "Id",               "INTEGER"));
    ("site_id",            (None,                    "INTEGER"));
    ("post_type",          (Some "PostTypeId",       "INTEGER NOT NULL"));
    ("accepted_answer_id", (Some "AcceptedAnswerId", "INTEGER"));
    ("creation_date",      (Some "CreationDate",     "TEXT NOT NULL"));
    ("score",              (Some "Score",            "INTEGER NOT NULL"));
    ("view_count",         (Some "ViewCount",        "INTEGER"));
    ("body",               (Some "Body",             "TEXT"));
    ("user_id",            (Some "OwnerUserId",      "INTEGER"));
    ("last_activity_date", (Some "LastActivityDate", "TEXT"));
    ("title",              (Some "Title",            "TEXT"));
    ("tags",               (Some "Tags",             "TEXT"));
    ("answer_count",       (Some "AnswerCount",      "INTEGER"));
    ("comment_count",      (Some "CommentCount",     "INTEGER")) ]
  [ "PRIMARY KEY (id, site_id)";
    "FOREIGN KEY (site_id) REFERENCES sites (id)";
    "FOREIGN KEY (user_id, site_id) REFERENCES users (id, site_id)";
    "FOREIGN KEY (accepted_answer_id, site_id) REFERENCES posts (id, site_id)" ].

Definition users : Table := mkTable "users"
  [ ("id",            (Some "Id",              "INTEGER"));
    ("site_id",       (None,                   "INTEGER"));
    ("reputation",    (Some "Reputation",      "INTEGER NOT NULL"));
    ("creation_date", (Some "CreationDate",    "TEXT"));
    ("display_name",  (Some "DisplayName",     "TEXT"));
    ("url",           (Some "WebsiteUrl",      "TEXT"));
    ("location",      (Some "Location",        "TEXT"));
    ("about_me",      (Some "AboutMe",         "TEXT"));
    ("views",         (Some "Views",           "INTEGER"));
    ("profile_image", (Some "ProfileImageUrl", "TEXT"));
    ("account_id",    (Some "AccountId",       "INTEGER"));
    ("up_votes",      (Some "UpVotes",         "INTEGER")) ]
  [ "PRIMARY KEY (id, site_id)";
    "FOREIGN KEY (site_id) REFERENCES sites (id)" ].

(** ** The destination store and the resources of one load *)

(** What the store answers to one row of a batch, given the rows the table
    holds: it takes the row, or rejects it on a uniqueness, NOT NULL, CHECK or
    primary-key constraint ([Conflict], the kind that OR IGNORE passes over),
    or rejects it on a foreign key ([Violation], raised under OR IGNORE too),
    or fails for another reason ([Fatal], any other [sqlite3.Error]). *)
Inductive verdict : Type :=
| Accept
| Conflict
| Violation
| Fatal (msg : string).

(** The connection [db]: the rows of the table as the open transaction sees
    them, the rows as of the last commit, and the number of [commit()] calls. *)
Record Db : Type := mkDb {
  rows : list (list value);
  committed : list (list value);
  commits : nat
}.

Definition insert (vals : list value) (d : Db) : Db :=
  mkDb (rows d ++ [vals]) (committed d) (commits d).

(** [db.commit()] *)
Definition commit (d : Db) : Db :=
  mkDb (rows d) (rows d) (S (commits d)).

(** A file object or a cursor. *)
Inductive handle : Type :=
| Absent
| Open
| Closed.

(** What [print] wrote. *)
Inductive out : Type :=
| OutStr (s : string)
| OutRow (r : option row).

(** The variables of one call of [insert_from_xml] ([fd] with its iterator
    [it], [last_row], [done], [cur]), the connection and the standard
    output. *)
Record frame : Type := mkFrame {
  fd : handle;
  it : list string;
  last_row : option row;
  done : bool;
  cur : handle;
  db : Db;
  stdout : list out
}.

Definition set_fd (h : handle) (s : frame) : frame :=
  mkFrame h (it s) (last_row s) (done s) (cur s) (db s) (stdout s).
Definition set_it (l : list string) (s : frame) : frame :=
  mkFrame (fd s) l (last_row s) (done s) (cur s) (db s) (stdout s).
Definition set_last_row (r : option row) (s : frame) : frame :=
  mkFrame (fd s) (it s) r (done s) (cur s) (db s) (stdout s).
Definition set_done (b : bool) (s : frame) : frame :=
  mkFrame (fd s) (it s) (last_row s) b (cur s) (db s) (stdout s).
Definition set_cur (h : handle) (s : frame) : frame :=
  mkFrame (fd s) (it s) (last_row s) (done s) h (db s) (stdout s).
Definition set_db (d : Db) (s : frame) : frame :=
  mkFrame (fd s) (it s) (last_row s) (done s) (cur s) d (stdout s).
Definition print (o : out) (s : frame) : frame :=
  mkFrame (fd s) (it s) (last_row s) (done s) (cur s) (db s) (stdout s ++ [o]).

(** Lines 81-83, [db.commit(); cur.close(); fd.close()], on the frame that
    the loop left. *)
Definition finished (s : frame) : frame :=
  set_fd Closed (set_cur Closed (set_db (commit (db s)) s)).

(** [next(it)] *)
Definition next (s : frame) : res unit * frame :=
  match it s with
  | [] => (Raise StopIteration, s)
  | _ :: l => (Ok (), set_it l s)
  end.

(** ** Table.insert_from_xml *)

Definition insert_sql (self : Table) (exist_ok : bool) : string :=
  "INSERT" ++ (if exist_ok then " OR IGNORE" else "") ++ " INTO " ++ name self
    ++ " (" ++ Py.join "," (map fst (schema self)) ++ ") VALUES ("
    ++ Py.join "," (map (fun _ => "?") (schema self)) ++ ");".

(** One turn of the body of the [for] loop of [pull_rows]. *)
Inductive turn : Type :=
| Break
| Continue
| Yield (r : row)
| Throw (e : exn).

(** What resuming the generator gives to its consumer. *)
Inductive pulled : Type :=
| Item (vals : list value)
| Exhausted
| Failed (e : exn).

Section Loader.

(** [ET.fromstring] on one line, giving the attributes of the element;
    [None] stands for [ET.ParseError]. *)
Variable fromstring : string -> option (gmap string string).

(** The store: [prepare sql] is [Some msg] when the statement cannot be
    compiled (an [OperationalError], say), and [check held vals] is the
    answer to the row [vals] when the table holds [held]. *)
Variable prepare : string -> option string.
Variable check : list (list value) -> list value -> verdict.

Variable self : Table.
Variable filter_row : option (row -> option row).

Definition endtag : string := "</" ++ name self ++ ">".

(** Lines 49-62: the body of the loop of [pull_rows] on one line. *)
Definition pull_rows_body (line : string) : turn :=
  let line := Py.strip line in
  if String.eqb line endtag then Break
  else
    match fromstring line with
    | None => Throw ParseError
    | Some root =>
        match parse_row self root with
        | Raise e => Throw e
        | Ok row =>
            let row := match filter_row with
                       | Some f => f row
                       | None => Some row
                       end in
            match row with
            | None => Continue
            | Some row => Yield row
            end
        end
    end.

(** The generator [pull_rows], resumed on the lines that [it] still holds,
    up to its next [yield], its return or its exception. The advisory
    [record_count] and the progress bar do not act on the state. A generator
    that has raised is never resumed: its exceptions are none that the loop
    catches (see [pull_rows_body_throw]). *)
Fixpoint pull_rows (lines : list string) (s : frame) : pulled * frame :=
  match lines with
  | [] => (Exhausted, set_done true (set_it [] s))
  | line :: lines' =>
      match pull_rows_body line with
      | Break => (Exhausted, set_done true (set_it lines' s))
      | Continue => pull_rows lines' s
      | Yield r => (Item (values r), set_last_row (Some r) (set_it lines' s))
      | Throw e => (Failed e, set_it lines' s)
      end
  end.

(** [next(data)] *)
Definition next_data (s : frame) : pulled * frame := pull_rows (it s) s.

(** The statement carries OR IGNORE. *)
Definition or_ignore (sql : string) : bool := Py.startswith sql "INSERT OR IGNORE".

(** The loop of [cur.executemany(sql, data)] over the rows it pulls from the
    generator: run the statement on each row until the generator ends, the
    generator raises or the store rejects a row. [None] is the model running
    out of [fuel]. *)
Fixpoint executemany_rows (fuel : nat) (sql : string) (s : frame)
    : option (res unit * frame) :=
  match fuel with
  | O => None
  | S fuel' =>
      match next_data s with
      | (Exhausted, s') => Some (Ok (), s')
      | (Failed e, s') => Some (Raise e, s')
      | (Item vals, s') =>
          match check (rows (db s')) vals with
          | Accept => executemany_rows fuel' sql (set_db (insert vals (db s')) s')
          | Conflict =>
              if or_ignore sql then executemany_rows fuel' sql s'
              else Some (Raise IntegrityError, s')
          | Violation => Some (Raise IntegrityError, s')
          | Fatal msg => Some (Raise (Error msg), s')
          end
      end
  end.

(** [cur.executemany(sql, data)]: the statement is compiled first. *)
Definition executemany (fuel : nat) (sql : string) (s : frame)
    : option (res unit * frame) :=
  match prepare sql with
  | Some msg => Some (Raise (Error msg), s)
  | None => executemany_rows fuel sql s
  end.

(** Lines 76-78: the three [print]s of the [except Error] clause. *)
Definition report (s : frame) : frame :=
  print (OutStr "Exception:")
    (print (OutRow (last_row s))
       (print (OutStr "Last inserted row:") s)).

(** Lines 70-79: [while not done] with its [try]. *)
Fixpoint while_not_done (fuel : nat) (sql : string) (s : frame)
    : option (res unit * frame) :=
  if done s then Some (Ok (), s)
  else
    match fuel with
    | O => None
    | S fuel' =>
        match executemany fuel sql s with
        | None => None
        | Some (Ok _, s') => while_not_done fuel' sql s'
        | Some (Raise IntegrityError, s') => while_not_done fuel' sql s'
        | Some (Raise (Error msg), s') =>
            Some (Raise (Error msg), report s')
        | Some (Raise e, s') => Some (Raise e, s')
        end
    end.

(** The frame right after [fd = open(path, "r"); it = iter(fd)]; [path]
    stands for the lines of the file. *)
Definition opened (d : Db) (path : list string) : frame :=
  mkFrame Open path None false Absent d [].

(** Lines 70-83, from the frame [s] that holds the cursor. *)
Definition load_and_commit (fuel : nat) (sql : string) (s : frame)
    : option (res unit * frame) :=
  match while_not_done fuel sql s with
  | None => None
  | Some (Ok _, s') => Some (Ok (), finished s')
  | Some (Raise e, s') => Some (Raise e, s')
  end.

Definition insert_from_xml_fuel (fuel : nat) (d : Db) (path : list string)
    (exist_ok : bool) : option (res unit * frame) :=
  let s := opened d path in
  match next s with
  | (Raise e, s) => Some (Raise e, s)
  | (Ok _, s) =>
      match next s with
      | (Raise e, s) => Some (Raise e, s)
      | (Ok _, s) =>
          let sql := insert_sql self exist_ok in
          let s := set_cur Open s in
          load_and_commit fuel sql s
      end
  end.

(** [insert_from_xml(self, db, path, exist_ok, filter_row, description)]:
    one turn of the [while] loop for each line is always enough.
    [description] is only the label of the progress bar and is left out. *)
Definition insert_from_xml (d : Db) (path : list string) (exist_ok : bool)
    : option (res unit * frame) :=
  insert_from_xml_fuel (S (length path)) d path exist_ok.

(** *** One pass over the lines

    The reference that the loop is compared with: the lines are taken one
    by one in the order of the file, a row that the store rejects on a
    constraint is left out and the pass goes on with the next line. *)
Fixpoint drain (lines : list string) (s : frame) : res unit * frame :=
  match lines with
  | [] => (Ok (), set_done true (set_it [] s))
  | line :: lines' =>
      match pull_rows_body line with
      | Break => (Ok (), set_done true (set_it lines' s))
      | Continue => drain lines' s
      | Throw e => (Raise e, set_it lines' s)
      | Yield r =>
          let s' := set_last_row (Some r) (set_it lines' s) in
          match check (rows (db s)) (values r) with
          | Accept => drain lines' (set_db (insert (values r) (db s)) s')
          | Conflict | Violation => drain lines' s'
          | Fatal msg => (Raise (Error msg), report s')
          end
      end
  end.

(** The record lines of a file body (the lines after the two framing
    lines): those before the closing tag, or all of them when there is
    none. *)
Fixpoint record_lines (lines : list string) : list string :=
  match lines with
  | [] => []
  | line :: lines' =>
      if String.eqb (Py.strip line) endtag then []
      else line :: record_lines lines'
  end.

(** A line that parses: [ET.fromstring] and [parse_row] raise nothing. *)
Definition parses (line : string) : bool :=
  match pull_rows_body line with
  | Throw _ => false
  | _ => true
  end.

(** A line whose row the filter discards. *)
Definition discarded (line : string) : bool :=
  match pull_rows_body line with
  | Continue => true
  | _ => false
  end.

(** The number of lines whose row the filter discards. *)
Definition discarded_count (lines : list string) : nat :=
  length (List.filter discarded lines).

(** The rows that the given lines yield, in order. *)
Definition yielded (lines : list string) : list row :=
  omap (fun line => match pull_rows_body line with
                    | Yield r => Some r
                    | _ => None
                    end) lines.

(** The store fed with a batch row by row: the rows it holds in the end
    and the number of rows it rejected on a constraint; [None] when it
    fails on a row for another reason. *)
Fixpoint feed (held : list (list value)) (batch : list (list value))
    : option (list (list value) * nat) :=
  match batch with
  | [] => Some (held, O)
  | vals :: batch' =>
      match check held vals with
      | Accept => feed (held ++ [vals]) batch'
      | Conflict | Violation =>
          match feed held batch' with
          | Some (held', dropped) => Some (held', S dropped)
          | None => None
          end
      | Fatal _ => None
      end
  end.

End Loader.

(** ** Concrete collaborators, used to run the loader on examples *)

Module Xml.

(** Where the scanner stands inside [<tag k='v' ... />]. *)
Inductive mode : Type :=
| Start
| Tag (seen : bool)
| Gap
| Key (k : string)
| Quote (k : string)
| Val (q : ascii) (k v : string)
| After
| Slash
| End.

Definition is_quote (c : ascii) : bool :=
  Ascii.eqb c "'" || Ascii.eqb c "034".

Definition name_char (c : ascii) : bool :=
  negb (Py.isspace c || is_quote c || Ascii.eqb c "<" || Ascii.eqb c ">"
        || Ascii.eqb c "/" || Ascii.eqb c "=" || Ascii.eqb c "&").

Definition snoc (s : string) (c : ascii) : string := s ++ String c EmptyString.

Fixpoint scan (m : mode) (attrib : gmap string string) (s : string)
    : option (gmap string string) :=
  match s with
  | EmptyString => match m with End => Some attrib | _ => None end
  | String c s' =>
      match m with
      | Start => if Ascii.eqb c "<" then scan (Tag false) attrib s' else None
      | Tag seen =>
          if name_char c then scan (Tag true) attrib s'
          else if seen && Py.isspace c then scan Gap attrib s'
          else if seen && Ascii.eqb c "/" then scan Slash attrib s'
          else None
      | Gap =>
          if Py.isspace c then scan Gap attrib s'
          else if Ascii.eqb c "/" then scan Slash attrib s'
          else if name_char c then scan (Key (String c EmptyString)) attrib s'
          else None
      | Key k =>
          if name_char c then scan (Key (snoc k c)) attrib s'
          else if Ascii.eqb c "=" then scan (Quote k) attrib s'
          else None
      | Quote k => if is_quote c then scan (Val c k EmptyString) attrib s' else None
      | Val q k v =>
          if Ascii.eqb c q then
            match attrib !! k with
            | Some _ => None
            | None => scan After (<[k := v]> attrib) s'
            end
          else if Ascii.eqb c "<" || Ascii.eqb c "&" then None
          else scan (Val q k (snoc v c)) attrib s'
      | After =>
          if Py.isspace c then scan Gap attrib s'
          else if Ascii.eqb c "/" then scan Slash attrib s'
          else None
      | Slash => if Ascii.eqb c ">" then scan End attrib s' else None
      | End => None
      end
  end.

(** [ET.fromstring] restricted to one empty-element tag whose attribute
    values hold no entity reference, which is the shape of a record line of
    the dumps; [None] on any other text. *)
Definition fromstring (line : string) : option (gmap string string) :=
  scan Start ∅ line.

End Xml.

Module Store.

Definition value_eqb (a b : value) : bool :=
  match a, b with
  | VNone, VNone => true
  | VInt n, VInt m => Z.eqb n m
  | VStr s, VStr t => String.eqb s t
  | _, _ => false
  end.

(** The value bound to the first column. *)
Definition key (vals : list value) : value := hd VNone vals.

(** A table whose first column is its primary key and that has no other
    constraint: a row is rejected when its key is held already. *)
Definition pk_check (held : list (list value)) (vals : list value) : verdict :=
  if existsb (fun r => value_eqb (key r) (key vals)) held then Conflict else Accept.

(** Every statement compiles. *)
Definition prepare_ok (sql : string) : option string := None.

(** A store that is out of order: every row fails with an error that is
    not an integrity violation. *)
Definition broken_check (held : list (list value)) (vals : list value) : verdict :=
  Fatal "disk I/O error".

Definition empty : Db := mkDb [] [] 0.

End Store.

(** ** The schema of the destination and Table.create_if_not_exists *)

Module Catalog.




End Catalog.


(** ** The row that the schema asks for *)

(** The entry [kv] is the one that the column [item] asks for on a record
    with the attributes [attrib]: the column's name, with [None] when the
    column has no source attribute or the record lacks it, the integer that
    the text stands for when the storage type starts with INTEGER, the text
    itself otherwise. *)
Definition entry_of (attrib : gmap string string)
    (item : string * (option string * string)) (kv : string * value) : Prop :=
  kv.1 = item.1 /\
  match item.2.1 with
  | None => kv.2 = VNone
  | Some attr =>
      match attrib !! attr with
      | None => kv.2 = VNone
      | Some v =>
          if Py.startswith item.2.2 "INTEGER"
          then exists n, Py.int v = Some n /\ kv.2 = VInt n
          else kv.2 = VStr v
      end
  end.

(** The column [item] is of an integer storage type and the record holds a
    text for it that [int] refuses. *)
Definition non_numeric (attrib : gmap string string)
    (item : string * (option string * string)) : Prop :=
  exists attr v, item.2.1 = Some attr /\ attrib !! attr = Some v /\
    Py.startswith item.2.2 "INTEGER" = true /\ Py.int v = None.

(** ** Frames of a load *)

(** The frame at line 70: the two framing lines are behind, [body] is what
    the iterator still holds, the cursor is open. *)
Definition started (d : Db) (body : list string) : frame :=
  mkFrame Open body None false Open d [].

(** The three lines that the [except Error] clause prints for [r]. *)
Definition last_row_report (r : option row) : list out :=
  [OutStr "Last inserted row:"; OutRow r; OutStr "Exception:"].

(** ** Example files *)

Module Examples.

Definition declaration : string := "<?xml version='1.0' encoding='utf-8'?>".

(** Five record lines for [sites]; the third has the [Id] of the first. *)
Definition duplicate_key : list string :=
  [ declaration; "<sites>";
    "  <row Id='1' Url='a.example' Name='A' />";
    "  <row Id='2' Url='b.example' Name='B' />";
    "  <row Id='1' Url='c.example' Name='C' />";
    "  <row Id='4' Url='d.example' Name='D' ParentId='1' />";
    "  <row Id='5' Url='e.example' Name='E' />";
    "</sites>" ].

(** The same lines, the file ending before the closing tag. *)
Definition unclosed : list string :=
  [ declaration; "<sites>";
    "  <row Id='1' Url='a.example' Name='A' />";
    "  <row Id='2' Url='b.example' Name='B' />" ].

(** The second record line holds a text that is no number for [Id]. *)
Definition bad_integer : list string :=
  [ declaration; "<sites>";
    "  <row Id='1' Url='a.example' Name='A' />";
    "  <row Id='two' Url='b.example' Name='B' />";
    "  <row Id='3' Url='c.example' Name='C' />";
    "</sites>" ].

(** The frame of a load of [duplicate_key] into the empty store when the
    loop starts. *)
Definition at_loop : frame := started Store.empty (drop 2 duplicate_key).


(** The frame that the first batch leaves on the store that is out of
    order. *)
Definition after_failure : frame :=
  Eval vm_compute in
    match executemany Xml.fromstring Store.prepare_ok Store.broken_check sites None
            7 (insert_sql sites false) at_loop with
    | Some (_, s) => s
    | None => at_loop
    end.

(** The values of the rows one, two, four and five of [duplicate_key]. *)
Definition four_rows : list (list value) :=
  [ [VInt 1; VStr "a.example"; VNone; VNone; VStr "A"; VNone; VNone; VNone];
    [VInt 2; VStr "b.example"; VNone; VNone; VStr "B"; VNone; VNone; VNone];
    [VInt 4; VStr "d.example"; VNone; VNone; VStr "D"; VInt 1; VNone; VNone];
    [VInt 5; VStr "e.example"; VNone; VNone; VStr "E"; VNone; VNone; VNone] ].

End Examples.

(** ** Example records *)

Module Records.

(** The attributes of [<row Id='7' Url='x.example' ParentId=' 3 ' />]. *)
Definition site : gmap string string :=
  <["Id" := "7"]> (<["Url" := "x.example"]> (<["ParentId" := " 3 "]> ∅)).

(** The attributes of the second record line of [Examples.bad_integer]. *)
Definition bad_site : gmap string string :=
  <["Id" := "two"]> (<["Url" := "b.example"]> (<["Name" := "B"]> ∅)).

End Records.

(** ** White space *)

(** A text made of white space only. *)
Fixpoint blank (s : string) : bool :=
  match s with
  | EmptyString => true
  | String c s' => Py.isspace c && blank s'
  end.

(** ** More example data *)

Module Samples.

(** [Records.site] with an attribute that no column of [sites] asks for. *)
Definition site_and_more : gmap string string :=
  <["Flag" := "on"]> Records.site.

(** The row of [Records.site]. *)
Definition site_row : row :=
  [ ("id", VInt 7); ("url", VStr "x.example"); ("tiny_name", VNone);
    ("long_name", VNone); ("name", VNone); ("parent_id", VInt 3);
    ("tagline", VNone); ("badge_icon_url", VNone) ].

(** Two users; the source has no [site_id]. *)
Definition users_file : list string :=
  [ Examples.declaration; "<users>";
    "  <row Id='1' Reputation='10' DisplayName='ann' />";
    "  <row Id='2' Reputation='20' DisplayName='bob' />";
    "</users>" ].

(** A filter that leaves out the user 2 and stamps the site 3 into the
    others. *)
Definition stamp (r : row) : option row :=
  match r with
  | (_, VInt 2) :: _ => None
  | _ => Some (od_set "site_id" (VInt 3) r)
  end.

Definition stamped_rows : list (list value) :=
  [ [VInt 1; VInt 3; VInt 10; VNone; VStr "ann"; VNone; VNone; VNone; VNone;
     VNone; VNone; VNone] ].

(** A line feed. *)
Definition newline : string := String "010" EmptyString.

End Samples.

(** * Properties *)

Lemma od_set_lookup_fresh (k : string) (v : value) (d : row) :
  k ∉ map fst d -> od_set k v d = (d ++ [(k, v)])%list.
Proof.
  induction d as [|[k' v'] d IH]; intros Hk; simpl in *.
  - reflexivity.
  - apply not_elem_of_cons in Hk as [Hne Hk].
    destruct (String.eqb_spec k k') as [->|_]; [congruence|].
    by rewrite IH.
Qed.

(** The only exception of [parse_row] is the [ValueError] of [int]. *)
Lemma parse_row_items_raise items attrib vals e :
  parse_row_items items attrib vals = Raise e -> e = ValueError.
Proof.
  revert vals. induction items as [|[col [attr typ]] items IH]; intros vals; simpl.
  - discriminate.
  - destruct (attr ≫= _) as [v|]; [|by apply IH].
    destruct (Py.startswith typ "INTEGER"); [|by apply IH].
    destruct (Py.int v); [by apply IH|]. by intros [= <-].
Qed.

(** ** Table.parse_row *)

Lemma parse_row_items_entries attrib items vals :
  NoDup (map fst vals ++ map fst items) ->
  match parse_row_items items attrib vals with
  | Ok r => exists r', r = (vals ++ r')%list /\ Forall2 (entry_of attrib) items r'
  | Raise e => e = ValueError /\ Exists (non_numeric attrib) items
  end.
Proof.
  revert vals.
  induction items as [|[col [attr typ]] items IH]; intros vals Hnd; simpl.
  - exists []. by rewrite app_nil_r.
  - assert (Hcol : col ∉ map fst vals).
    { apply NoDup_app in Hnd as (_ & Hdis & _). intros Hin.
      apply (Hdis col Hin). simpl. left. }
    assert (Hstep : forall v,
      match parse_row_items items attrib (od_set col v vals) with
      | Ok r => exists r', r = (vals ++ (col, v) :: r')%list
                           /\ Forall2 (entry_of attrib) items r'
      | Raise e => e = ValueError /\ Exists (non_numeric attrib) items
      end).
    { intros v. rewrite od_set_lookup_fresh by done.
      specialize (IH (vals ++ [(col, v)])%list).
      rewrite map_app in IH. simpl in IH. rewrite <- app_assoc in IH.
      specialize (IH Hnd).
      destruct (parse_row_items items attrib _) as [r|e]; [|done].
      destruct IH as (r' & -> & HF). exists r'. by rewrite <- app_assoc. }
    destruct attr as [attr|]; simpl.
    + destruct (attrib !! attr) as [v|] eqn:Hv.
      * destruct (Py.startswith typ "INTEGER") eqn:Hty.
        -- destruct (Py.int v) as [n|] eqn:Hint.
           ++ specialize (Hstep (VInt n)).
              destruct (parse_row_items items attrib _) as [r|e].
              ** destruct Hstep as (r' & -> & HF). exists ((col, VInt n) :: r').
                 split; [done|]. constructor; [|done].
                 split; [done|]. simpl. rewrite Hv, Hty. by exists n.
              ** destruct Hstep as [-> HE]. split; [done|]. by right.
           ++ split; [done|]. left. by exists attr, v.
        -- specialize (Hstep (VStr v)).
           destruct (parse_row_items items attrib _) as [r|e].
           ++ destruct Hstep as (r' & -> & HF). exists ((col, VStr v) :: r').
              split; [done|]. constructor; [|done].
              split; [done|]. simpl. by rewrite Hv, Hty.
           ++ destruct Hstep as [-> HE]. split; [done|]. by right.
      * specialize (Hstep VNone).
        destruct (parse_row_items items attrib _) as [r|e].
        -- destruct Hstep as (r' & -> & HF). exists ((col, VNone) :: r').
           split; [done|]. constructor; [|done].
           split; [done|]. simpl. by rewrite Hv.
        -- destruct Hstep as [-> HE]. split; [done|]. by right.
    + specialize (Hstep VNone).
      destruct (parse_row_items items attrib _) as [r|e].
      * destruct Hstep as (r' & -> & HF). exists ((col, VNone) :: r').
        split; [done|]. by constructor.
      * destruct Hstep as [-> HE]. split; [done|]. by right.
Qed.

Lemma entry_of_keys attrib items r :
  Forall2 (entry_of attrib) items r -> map fst r = map fst items.
Proof.
  induction 1 as [|item kv items r [Hk _] _ IH]; simpl; [done|].
  by rewrite Hk, IH.
Qed.

(** A record with a text that [int] refuses for an integer column makes
    [parse_row] raise [ValueError], whatever the other columns hold. *)
Lemma parse_row_items_non_numeric attrib items vals :
  Exists (non_numeric attrib) items ->
  parse_row_items items attrib vals = Raise ValueError.
Proof.
  intros HE. revert vals.
  induction HE as [[col [attr typ]] items (a & v & Ha & Hv & Hty & Hint)
                  |[col [attr typ]] items _ IH]; intros vals; simpl in *.
  - subst attr. simpl. by rewrite Hv, Hty, Hint.
  - destruct (attr ≫= _) as [v|]; [|by apply IH].
    destruct (Py.startswith typ "INTEGER"); [|by apply IH].
    by destruct (Py.int v); [apply IH|].
Qed.

(** C6. For a schema whose column names are distinct (it is an ordered
    dictionary) and every record, [parse_row] either returns a row with
    exactly one entry per declared column, in declaration order, where each
    entry is the column's name with the raw text of its source attribute
    (the integer it stands for when the storage type starts with INTEGER),
    and [None] when the source attribute is configured as none or absent
    from the record; or it raises [ValueError], which happens only when an
    integer column holds a text that [int] refuses. *)
Theorem parse_row_one_entry_per_column (self : Table) (attrib : gmap string string) :
  NoDup (map fst (schema self)) ->
  match parse_row self attrib with
  | Ok r =>
      map fst r = map fst (schema self) /\
      length r = length (schema self) /\
      Forall2 (entry_of attrib) (schema self) r
  | Raise e =>
      e = ValueError /\ Exists (non_numeric attrib) (schema self)
  end.
Proof.
  intros Hnd. unfold parse_row.
  pose proof (parse_row_items_entries attrib (schema self) [] Hnd) as H.
  destruct (parse_row_items (schema self) attrib []) as [r|e]; [|done].
  destruct H as (r' & -> & HF). simpl.
  split; [by apply (entry_of_keys attrib)|].
  split; [|done]. symmetry. by eapply Forall2_length.
Qed.

(** ** The statement of the batch insert *)

(** The store sees OR IGNORE in the statement exactly when [exist_ok] is
    set. *)
Lemma or_ignore_insert_sql (self : Table) (exist_ok : bool) :
  or_ignore (insert_sql self exist_ok) = exist_ok.
Proof. by destruct exist_ok. Qed.

(** ** The generator, the batch insert and the loop *)

Section LoaderFacts.

Context (fromstring : string -> option (gmap string string))
        (prepare : string -> option string)
        (check : list (list value) -> list value -> verdict)
        (self : Table)
        (filter_row : option (row -> option row)).

Local Abbreviation body_of := (pull_rows_body fromstring self filter_row).
Local Abbreviation pull := (pull_rows fromstring self filter_row).
Local Abbreviation rows_loop := (executemany_rows fromstring check self filter_row).
Local Abbreviation exec := (executemany fromstring prepare check self filter_row).
Local Abbreviation loop := (while_not_done fromstring prepare check self filter_row).
Local Abbreviation pass := (drain fromstring check self filter_row).

(** The generator raises only what [ET.fromstring] and [int] raise. *)
Lemma pull_rows_body_throw line e :
  body_of line = Throw e -> e = ParseError \/ e = ValueError.
Proof.
  unfold pull_rows_body.
  destruct (String.eqb _ _); [discriminate|].
  destruct (fromstring _) as [root|]; [|intros [= <-]; by left].
  destruct (parse_row self root) as [r|e'] eqn:Hp.
  - destruct filter_row as [f|]; [destruct (f r)|]; discriminate.
  - intros [= <-]. right. by eapply parse_row_items_raise.
Qed.

(** What the generator hands over, read on the one-pass reference. *)
Lemma pull_rows_drain lines s :
  match pull lines s with
  | (Exhausted, s') => pass lines s = (Ok (), s') /\ done s' = true
  | (Failed e, s') =>
      pass lines s = (Raise e, s') /\ (e = ParseError \/ e = ValueError)
  | (Item vals, s') =>
      length (it s') < length lines /\
      db s' = db s /\ done s' = done s /\
      pass lines s =
        match check (rows (db s')) vals with
        | Accept => pass (it s') (set_db (insert vals (db s')) s')
        | Conflict | Violation => pass (it s') s'
        | Fatal msg => (Raise (Error msg), report s')
        end
  end%nat.
Proof.
  revert s. induction lines as [|line lines IH]; intros s; simpl.
  - done.
  - destruct (body_of line) as [| |r|e] eqn:Hb.
    + done.
    + specialize (IH s). destruct (pull lines s) as [[vals| |e] s'].
      * destruct IH as (Hlen & Hdb & Hdone & Hpass). split_and!; [simpl; lia|done..].
      * done.
      * done.
    + simpl. split_and!; [lia|done..].
    + split; [done|]. by eapply pull_rows_body_throw.
Qed.

(** One batch insert, read on the one-pass reference. Fuel above the
    number of lines left is enough. *)
Lemma executemany_rows_drain fuel sql s :
  (length (it s) < fuel)%nat ->
  exists r s',
    rows_loop fuel sql s = Some (r, s') /\
    match r with
    | Ok _ => pass (it s) s = (Ok (), s') /\ done s' = true
    | Raise IntegrityError =>
        pass (it s) s = pass (it s') s' /\
        (length (it s') < length (it s))%nat /\ done s' = done s
    | Raise (Error msg) => pass (it s) s = (Raise (Error msg), report s')
    | Raise e => pass (it s) s = (Raise e, s')
    end.
Proof.
  revert s. induction fuel as [|fuel IH]; intros s Hlen; [lia|].
  simpl. unfold next_data.
  pose proof (pull_rows_drain (it s) s) as Hp.
  destruct (pull (it s) s) as [[vals| |e] s1].
  - destruct Hp as (Hlt & Hdb & Hdone & Hpass).
    destruct (check (rows (db s1)) vals) as [| | |msg] eqn:Hc.
    + destruct (IH (set_db (insert vals (db s1)) s1)) as (r & s' & Hr & Hm);
        [simpl; lia|].
      exists r, s'. split; [done|]. simpl in Hm. rewrite Hpass.
      destruct r as [u|[| | | |msg]]; try done.
      destruct Hm as (? & ? & ?). split_and!; [done|lia|congruence].
    + destruct (or_ignore sql).
      * destruct (IH s1) as (r & s' & Hr & Hm); [lia|].
        exists r, s'. split; [done|]. rewrite Hpass.
        destruct r as [u|[| | | |msg]]; try done.
        destruct Hm as (? & ? & ?). split_and!; [done|lia|congruence].
      * exists (Raise IntegrityError), s1. split_and!; done || lia.
    + exists (Raise IntegrityError), s1. split_and!; done || lia.
    + exists (Raise (Error msg)), s1. by split_and!.
  - destruct Hp as [Hpass Hdone]. exists (Ok ()), s1. by split_and!.
  - destruct Hp as [Hpass [-> | ->]];
      [exists (Raise ParseError), s1 | exists (Raise ValueError), s1]; by split_and!.
Qed.

(** The loop is the one pass, once the statement compiles. *)
Lemma while_not_done_drain fuel sql s :
  prepare sql = None ->
  (length (it s) < fuel)%nat ->
  done s = false ->
  loop fuel sql s = Some (pass (it s) s).
Proof.
  intros Hprep. revert s.
  induction fuel as [|fuel IH]; intros s Hlen Hdone; [lia|].
  simpl. rewrite Hdone. unfold executemany. rewrite Hprep.
  destruct (executemany_rows_drain (S fuel) sql s Hlen) as (r & s' & Hr & Hm).
  rewrite Hr.
  destruct r as [u|[| | | |msg]].
  - destruct Hm as [Hpass Hd]. destruct fuel; simpl; rewrite Hd, Hpass; by destruct u.
  - by rewrite Hm.
  - by rewrite Hm.
  - by rewrite Hm.
  - destruct Hm as (Hpass & Hlt & Hd). rewrite Hpass.
    apply IH; [lia|congruence].
  - by rewrite Hm.
Qed.

(** A statement that does not compile ends the load on the first turn. *)
Lemma while_not_done_unprepared fuel sql s msg :
  prepare sql = Some msg ->
  done s = false ->
  loop (S fuel) sql s = Some (Raise (Error msg), report s).
Proof.
  intros Hprep Hdone. simpl. rewrite Hdone. unfold executemany. by rewrite Hprep.
Qed.

(** *** Facts about the one pass *)

Lemma pull_rows_body_break line :
  body_of line = Break <-> String.eqb (Py.strip line) (endtag self) = true.
Proof.
  unfold pull_rows_body. destruct (String.eqb _ _); [done|].
  split; [|done].
  destruct (fromstring _) as [root|]; [|done].
  destruct (parse_row self root) as [r|e]; [|done].
  destruct filter_row as [f|]; [by destruct (f r)|done].
Qed.

(** A prefix of record lines that parse, on a store that fails on none of
    their rows, is passed over: the pass goes on with the rest, the table
    holding what [feed] says. *)
Lemma drain_prefix pre rest s held n :
  record_lines self pre = pre ->
  Forall (fun l => parses fromstring self filter_row l = true) pre ->
  feed check (rows (db s))
    (map values (yielded fromstring self filter_row pre)) = Some (held, n) ->
  exists s1,
    pass (pre ++ rest) s = pass rest s1 /\
    rows (db s1) = held /\
    committed (db s1) = committed (db s) /\
    commits (db s1) = commits (db s) /\
    fd s1 = fd s /\ cur s1 = cur s /\ stdout s1 = stdout s /\
    last_row s1 = match last (yielded fromstring self filter_row pre) with
                  | Some r => Some r
                  | None => last_row s
                  end.
Proof.
  revert s held n.
  induction pre as [|l pre IH]; intros s held n Hrec Hpar Hfeed.
  - simpl in *. injection Hfeed as <- <-. exists s. by split_and!.
  - simpl in Hrec.
    destruct (String.eqb (Py.strip l) (endtag self)) eqn:Hend; [done|].
    injection Hrec as Hrec.
    apply Forall_cons in Hpar as [Hl Hpar].
    unfold parses in Hl. unfold yielded in *. simpl in *.
    destruct (body_of l) as [| |r|e] eqn:Hb.
    + apply pull_rows_body_break in Hb. congruence.
    + by apply (IH s held n).
    + simpl in Hfeed.
      assert (Hlast : forall (o : option row),
        match last (r :: omap (fun line => match body_of line with
                                           | Yield r0 => Some r0
                                           | _ => None
                                           end) pre) with
        | Some r0 => Some r0
        | None => o
        end =
        match last (omap (fun line => match body_of line with
                                      | Yield r0 => Some r0
                                      | _ => None
                                      end) pre) with
        | Some r0 => Some r0
        | None => Some r
        end).
      { intros o. rewrite last_cons. by destruct (last _). }
      rewrite Hlast.
      destruct (check (rows (db s)) (values r)) eqn:Hc.
      * destruct (IH (set_db (insert (values r) (db s))
                        (set_last_row (Some r) (set_it (pre ++ rest) s)))
                    held n Hrec Hpar Hfeed)
          as (s1 & ? & ? & ? & ? & ? & ? & ? & ?).
        exists s1. by split_and!.
      * destruct (feed check (rows (db s)) _) as [[h m]|] eqn:Hf; [|done].
        injection Hfeed as -> <-.
        destruct (IH (set_last_row (Some r) (set_it (pre ++ rest) s))
                    held m Hrec Hpar Hf)
          as (s1 & ? & ? & ? & ? & ? & ? & ? & ?).
        exists s1. by split_and!.
      * destruct (feed check (rows (db s)) _) as [[h m]|] eqn:Hf; [|done].
        injection Hfeed as -> <-.
        destruct (IH (set_last_row (Some r) (set_it (pre ++ rest) s))
                    held m Hrec Hpar Hf)
          as (s1 & ? & ? & ? & ? & ? & ? & ? & ?).
        exists s1. by split_and!.
      * done.
    + done.
Qed.

(** The pass never commits, never touches the file or the cursor, lets no
    integrity violation out, and prints only on an [Error]. *)
Lemma drain_invariants lines s r s' :
  pass lines s = (r, s') ->
  fd s' = fd s /\ cur s' = cur s /\
  commits (db s') = commits (db s) /\
  committed (db s') = committed (db s) /\
  match r with
  | Ok _ => done s' = true /\ stdout s' = stdout s
  | Raise (Error _) =>
      stdout s' = (stdout s ++ last_row_report (last_row s'))%list
  | Raise ParseError | Raise ValueError => stdout s' = stdout s
  | Raise IntegrityError | Raise StopIteration => False
  end.
Proof.
  revert s. induction lines as [|l lines IH]; intros s; simpl.
  - intros [= <- <-]. by split_and!.
  - destruct (body_of l) as [| |row|e] eqn:Hb.
    + intros [= <- <-]. by split_and!.
    + apply IH.
    + destruct (check _ _) as [| | |msg].
      * intros H. apply IH in H as (? & ? & ? & ? & ?). by split_and!.
      * intros H. apply IH in H as (? & ? & ? & ? & ?). by split_and!.
      * intros H. apply IH in H as (? & ? & ? & ? & ?). by split_and!.
      * intros [= <- <-]. split_and!; try done.
        simpl. by rewrite <- !app_assoc.
    + intros [= <- <-].
      destruct (pull_rows_body_throw _ _ Hb) as [-> | ->]; by split_and!.
Qed.

(** The lines that the pass has taken are a prefix of its input, the lines
    it leaves are the rest, and [last_row] is the last row that the lines
    taken have yielded. *)
Lemma drain_consumed lines s r s' :
  pass lines s = (r, s') ->
  exists consumed,
    lines = (consumed ++ it s')%list /\
    last_row s' = match last (yielded fromstring self filter_row consumed) with
                  | Some r0 => Some r0
                  | None => last_row s
                  end.
Proof.
  revert s. induction lines as [|l lines IH]; intros s; simpl.
  - intros [= <- <-]. by exists [].
  - unfold yielded.
    assert (Hcons : forall s0 (x : option row),
      (exists consumed, lines = (consumed ++ it s')%list /\
         last_row s' = match last (omap (fun line => match body_of line with
                                                     | Yield r0 => Some r0
                                                     | _ => None
                                                     end) consumed) with
                       | Some r0 => Some r0
                       | None => last_row s0
                       end) ->
      last_row s0 = match x with Some r0 => Some r0 | None => last_row s end ->
      body_of l = match x with Some r0 => Yield r0 | None => Continue end ->
      exists consumed, l :: lines = (consumed ++ it s')%list /\
         last_row s' = match last (omap (fun line => match body_of line with
                                                     | Yield r0 => Some r0
                                                     | _ => None
                                                     end) consumed) with
                       | Some r0 => Some r0
                       | None => last_row s
                       end).
    { intros s0 x (consumed & -> & Hl) Hs0 Hx. exists (l :: consumed).
      split; [done|]. simpl. rewrite Hx, Hl.
      destruct x as [r0|]; simpl.
      - rewrite last_cons. destruct (last _); [done|]. by rewrite Hs0.
      - destruct (last _); [done|]. by rewrite Hs0. }
    destruct (body_of l) as [| |row|e] eqn:Hb.
    + intros [= <- <-]. exists [l]. simpl. by rewrite Hb.
    + intros H. apply IH in H. by apply (Hcons s None).
    + destruct (check _ _) as [| | |msg].
      * intros H. apply IH in H. by apply (Hcons _ (Some row) H).
      * intros H. apply IH in H. by apply (Hcons _ (Some row) H).
      * intros H. apply IH in H. by apply (Hcons _ (Some row) H).
      * intros [= <- <-]. exists [l]. simpl. by rewrite Hb.
    + intros [= <- <-]. exists [l]. simpl. by rewrite Hb.
Qed.

(** An [Error] of the pass is an answer of the store. *)
Lemma drain_error lines s msg s' :
  pass lines s = (Raise (Error msg), s') ->
  exists held vals, check held vals = Fatal msg.
Proof.
  revert s. induction lines as [|l lines IH]; intros s; simpl; [done|].
  destruct (body_of l) as [| |row|e] eqn:Hb; [done|apply IH| |].
  - destruct (check _ _) as [| | |m] eqn:Hc; [apply IH..|].
    intros [= <- <-]. eauto.
  - intros [= -> <-]. by destruct (pull_rows_body_throw _ _ Hb).
Qed.

(** *** The whole call *)

Local Abbreviation load := (insert_from_xml fromstring prepare check self filter_row).

Lemma insert_from_xml_drain d h1 h2 body exist_ok :
  prepare (insert_sql self exist_ok) = None ->
  load d (h1 :: h2 :: body) exist_ok =
    Some (match pass body (started d body) with
          | (Ok _, s') => (Ok (), finished s')
          | (Raise e, s') => (Raise e, s')
          end).
Proof.
  intros Hprep.
  change (load d (h1 :: h2 :: body) exist_ok)
    with (load_and_commit fromstring prepare check self filter_row
            (S (S (S (length body)))) (insert_sql self exist_ok) (started d body)).
  unfold load_and_commit.
  rewrite (while_not_done_drain _ _ (started d body) Hprep); [|simpl; lia|done].
  simpl. by destruct (pass body (started d body)) as [[u|e] s'].
Qed.

Lemma insert_from_xml_unprepared d h1 h2 body exist_ok msg :
  prepare (insert_sql self exist_ok) = Some msg ->
  load d (h1 :: h2 :: body) exist_ok =
    Some (Raise (Error msg), report (started d body)).
Proof.
  intros Hprep.
  change (load d (h1 :: h2 :: body) exist_ok)
    with (load_and_commit fromstring prepare check self filter_row
            (S (S (S (length body)))) (insert_sql self exist_ok) (started d body)).
  unfold load_and_commit.
  by rewrite (while_not_done_unprepared _ _ (started d body) msg Hprep).
Qed.

Lemma insert_from_xml_short d path exist_ok :
  (length path < 2)%nat ->
  load d path exist_ok =
    Some (Raise StopIteration, mkFrame Open [] None false Absent d []).
Proof.
  intros Hlen. destruct path as [|h1 [|h2 body]]; [done|done|simpl in Hlen; lia].
Qed.

(** The call always returns: the fuel it takes is enough. *)
Lemma insert_from_xml_total d path exist_ok :
  exists r s', load d path exist_ok = Some (r, s').
Proof.
  destruct path as [|h1 [|h2 body]].
  - rewrite insert_from_xml_short by (simpl; lia). eauto.
  - rewrite insert_from_xml_short by (simpl; lia). eauto.
  - destruct (prepare (insert_sql self exist_ok)) as [msg|] eqn:Hprep.
    + rewrite (insert_from_xml_unprepared _ _ _ _ _ msg Hprep). eauto.
    + rewrite (insert_from_xml_drain _ _ _ _ _ Hprep).
      destruct (pass body (started d body)) as [[u|e] s']; eauto.
Qed.

(** *** Record lines, discarded rows and the store *)

Local Abbreviation is_end := (fun l => String.eqb (Py.strip l) (endtag self)).

Lemma record_lines_Forall body :
  Forall (fun l => is_end l = false) (record_lines self body).
Proof.
  induction body as [|l body IH]; simpl; [done|].
  destruct (is_end l) eqn:Hl; [done|]. by constructor.
Qed.

Lemma record_lines_fixed lines :
  Forall (fun l => is_end l = false) lines -> record_lines self lines = lines.
Proof.
  induction 1 as [|l lines Hl _ IH]; simpl; [done|]. by rewrite Hl, IH.
Qed.

Lemma record_lines_idem body :
  record_lines self (record_lines self body) = record_lines self body.
Proof. apply record_lines_fixed, record_lines_Forall. Qed.

(** A body is its record lines and then nothing, or the closing tag and
    what follows it. *)
Lemma record_lines_split body :
  exists rest, body = (record_lines self body ++ rest)%list /\
               record_lines self rest = [].
Proof.
  induction body as [|l body (rest & IH & Hrest)]; simpl.
  - by exists [].
  - destruct (is_end l) eqn:Hl.
    + exists (l :: body). simpl. by rewrite Hl.
    + exists rest. simpl. by rewrite <- IH.
Qed.

(** The pass ends well on the closing tag and at the end of the file. *)
Lemma drain_at_end rest s :
  record_lines self rest = [] ->
  pass rest s = (Ok (), set_done true (set_it (tail rest) s)).
Proof.
  destruct rest as [|l rest]; simpl; [done|].
  destruct (is_end l) eqn:Hl; [|done].
  apply pull_rows_body_break in Hl. by rewrite Hl.
Qed.

(** The lines that the iterator holds do not matter to the pass over
    given lines. *)
Lemma drain_set_it lines l s :
  pass lines (set_it l s) = pass lines s.
Proof.
  revert s. induction lines as [|x lines IH]; intros s; simpl; [done|].
  by destruct (body_of x).
Qed.

(** Each record line that parses yields a row or is discarded. *)
Lemma yielded_count lines :
  Forall (fun l => is_end l = false) lines ->
  Forall (fun l => parses fromstring self filter_row l = true) lines ->
  (length (yielded fromstring self filter_row lines)
     + discarded_count fromstring self filter_row lines = length lines)%nat.
Proof.
  unfold yielded, discarded_count, discarded, parses.
  induction 1 as [|l lines Hl _ IH]; intros Hp; simpl; [done|].
  apply Forall_cons in Hp as [Hpl Hp]. specialize (IH Hp).
  destruct (body_of l) eqn:Hb; simpl in *; unfold omap in *.
  - apply pull_rows_body_break in Hb. congruence.
  - lia.
  - lia.
  - done.
Qed.

(** No row passes a filter that discards them all. *)
Lemma yielded_all_discarded lines f :
  filter_row = Some f -> (forall r, f r = None) ->
  yielded fromstring self filter_row lines = [].
Proof.
  intros Hf Hnone. unfold yielded.
  induction lines as [|l lines IH]; simpl; [done|].
  assert (Hb : match body_of l with Yield _ => False | _ => True end).
  { unfold pull_rows_body.
    destruct (String.eqb _ _); [done|].
    destruct (fromstring _) as [root|]; [|done].
    destruct (parse_row self root) as [r|e]; [|done].
    by rewrite Hf, Hnone. }
  unfold omap in IH. by destruct (body_of l).
Qed.

(** A well-formed file on a store that compiles the statement and fails
    on no row is loaded and committed: the table holds what [feed] makes
    of the rows that the record lines yield. *)
Lemma insert_from_xml_succeeds d h1 h2 body exist_ok held dropped :
  prepare (insert_sql self exist_ok) = None ->
  Forall (fun l => parses fromstring self filter_row l = true)
    (record_lines self body) ->
  feed check (rows d)
    (map values (yielded fromstring self filter_row (record_lines self body)))
    = Some (held, dropped) ->
  exists s',
    load d (h1 :: h2 :: body) exist_ok = Some (Ok (), s') /\
    rows (db s') = held /\ committed (db s') = held /\
    commits (db s') = S (commits d) /\
    fd s' = Closed /\ cur s' = Closed /\ stdout s' = [] /\
    last_row s' = last (yielded fromstring self filter_row (record_lines self body)).
Proof.
  intros Hprep.
  rewrite (insert_from_xml_drain _ _ _ _ _ Hprep).
  generalize (record_lines_idem body) (record_lines_split body).
  set (recs := record_lines self body). clearbody recs.
  intros Hidem (rest & Hbody & Hrest) Hpar Hfeed.
  replace (pass body (started d body))
    with (pass (recs ++ rest) (started d body)) by (by rewrite <- Hbody).
  destruct (drain_prefix recs rest (started d body) held dropped)
    as (s1 & -> & Hrows & Hcomm & Hcnt & Hfd & Hcur & Hout & Hlast);
    [done..|].
  rewrite (drain_at_end _ _ Hrest).
  eexists. split; [done|]. simpl in *.
  split_and!; try done.
  - by rewrite Hcnt.
  - rewrite Hlast. by destruct (last _).
Qed.

(** *** One batch *)

Lemma pull_rows_suffix lines s p s' :
  pull lines s = (p, s') ->
  db s' = db s /\
  exists consumed, lines = (consumed ++ it s')%list /\
                   (p <> Exhausted -> consumed <> []).
Proof.
  revert s. induction lines as [|l lines IH]; intros s; simpl.
  - intros [= <- <-]. split; [done|]. by exists [].
  - destruct (body_of l).
    + intros [= <- <-]. split; [done|]. by exists [l].
    + intros H. apply IH in H as (Hdb & consumed & -> & _).
      split; [done|]. by exists (l :: consumed).
    + intros [= <- <-]. split; [done|]. by exists [l].
    + intros [= <- <-]. split; [done|]. by exists [l].
Qed.

(** A batch takes lines from the front of the iterator, adds rows at the
    end of the table and does not commit; when it stops on an integrity
    violation it has taken at least the line of the rejected row. *)
Lemma executemany_rows_suffix fuel sql s r s' :
  rows_loop fuel sql s = Some (r, s') ->
  commits (db s') = commits (db s) /\
  committed (db s') = committed (db s) /\
  (exists added, rows (db s') = (rows (db s) ++ added)%list) /\
  exists consumed, it s = (consumed ++ it s')%list /\
                   (r = Raise IntegrityError -> consumed <> []).
Proof.
  revert s. induction fuel as [|fuel IH]; intros s; simpl; [done|].
  unfold next_data.
  destruct (pull (it s) s) as [[vals| |e] s1] eqn:Hp;
    apply pull_rows_suffix in Hp as (Hdb & consumed & Hit & Hne).
  - assert (Hc : consumed <> []).
    { by apply Hne. }
    assert (Hgo : forall s2, db s2 = db s1 \/ db s2 = insert vals (db s1) ->
              it s2 = it s1 ->
              rows_loop fuel sql s2 = Some (r, s') ->
              commits (db s') = commits (db s) /\
              committed (db s') = committed (db s) /\
              (exists added, rows (db s') = (rows (db s) ++ added)%list) /\
              exists consumed0, it s = (consumed0 ++ it s')%list /\
                                (r = Raise IntegrityError -> consumed0 <> [])).
    { intros s2 Hdb2 Hit2 H.
      apply IH in H as (Hcnt & Hcomm & (added & Hrows) & consumed2 & Hit' & _).
      rewrite Hit2 in Hit'.
      split_and!.
      - rewrite Hcnt. destruct Hdb2 as [-> | ->]; by rewrite ?Hdb.
      - rewrite Hcomm. destruct Hdb2 as [-> | ->]; by rewrite ?Hdb.
      - destruct Hdb2 as [Hd | Hd]; rewrite Hd in Hrows; simpl in Hrows;
          rewrite Hdb in Hrows.
        + by exists added.
        + exists (vals :: added). by rewrite Hrows, <- app_assoc.
      - exists (consumed ++ consumed2)%list.
        split; [by rewrite Hit, Hit', app_assoc|].
        intros _ Hnil. apply app_eq_nil in Hnil as [? _]. done. }
    destruct (check (rows (db s1)) vals) as [| | |msg].
    + apply Hgo; [by right|done].
    + destruct (or_ignore sql).
      * apply Hgo; [by left|done].
      * intros [= <- <-]. rewrite Hdb. split_and!; try done.
        -- exists []. by rewrite app_nil_r.
        -- by exists consumed.
    + intros [= <- <-]. rewrite Hdb. split_and!; try done.
      * exists []. by rewrite app_nil_r.
      * by exists consumed.
    + intros [= <- <-]. rewrite Hdb. split_and!; try done.
      * exists []. by rewrite app_nil_r.
      * by exists consumed.
  - intros [= <- <-]. rewrite Hdb. split_and!; try done.
    + exists []. by rewrite app_nil_r.
    + by exists consumed.
  - intros [= <- <-]. rewrite Hdb. split_and!; try done.
    + exists []. by rewrite app_nil_r.
    + exists consumed. split; [done|]. intros _. by apply Hne.
Qed.

(** *** The claims on the loader *)

(** C10. A file of fewer than two lines makes [insert_from_xml] fail while
    it skips the framing lines: [next] raises [StopIteration] on the
    exhausted iterator, before a row is parsed (no [last_row]), before the
    cursor exists, with the store as it was: nothing inserted, nothing
    committed. *)
Theorem insert_from_xml_short_file d path exist_ok :
  (length path < 2)%nat ->
  exists s',
    insert_from_xml fromstring prepare check self filter_row d path exist_ok
      = Some (Raise StopIteration, s') /\
    db s' = d /\ last_row s' = None /\ cur s' = Absent /\
    stdout s' = [] /\ done s' = false.
Proof.
  intros Hlen. rewrite insert_from_xml_short by done.
  eexists. by split_and!.
Qed.

(** C3, as amended. [insert_from_xml] always returns or raises. When it
    returns (with or without tolerated duplicates) the file handle and the
    cursor are closed. When it raises, the file handle is left open and the
    cursor, if it was created, is left open too: no exit path but the
    normal one releases them. *)
Theorem handles_released_on_return_only d path exist_ok :
  exists r s',
    insert_from_xml fromstring prepare check self filter_row d path exist_ok
      = Some (r, s') /\
    match r with
    | Ok _ => fd s' = Closed /\ cur s' = Closed
    | Raise _ => fd s' = Open /\ cur s' <> Closed
    end.
Proof.
  destruct path as [|h1 [|h2 body]].
  - rewrite insert_from_xml_short by (simpl; lia). by eexists _, _.
  - rewrite insert_from_xml_short by (simpl; lia). by eexists _, _.
  - destruct (prepare (insert_sql self exist_ok)) as [msg|] eqn:Hprep.
    + rewrite (insert_from_xml_unprepared _ _ _ _ _ msg Hprep). by eexists _, _.
    + rewrite (insert_from_xml_drain _ _ _ _ _ Hprep).
      destruct (pass body (started d body)) as [[u|e] s'] eqn:Hpass;
        apply drain_invariants in Hpass as (Hfd & Hcur & _).
      * by eexists _, _.
      * eexists _, _. split; [done|]. by rewrite Hfd, Hcur.
Qed.



(** C8. When a batch insert fails with an [Error] of the store that is not
    an integrity violation, the loop stops at once: it prints the heading,
    [last_row] (the row that the generator prepared last) and the second
    heading, and raises the same error again; lines 81-83 do not run, so
    nothing is committed. Seen from the caller: a call that raises such an
    error has printed exactly these three lines, with the last row that
    the lines read so far have yielded ([None] when there is none), the
    error is an answer of the store, and the store has not committed. *)
Theorem store_error_is_fatal fuel sql s s1 msg d path exist_ok s' :
  (done s = false ->
   executemany fromstring prepare check self filter_row (S fuel) sql s
     = Some (Raise (Error msg), s1) ->
   while_not_done fromstring prepare check self filter_row (S fuel) sql s
     = Some (Raise (Error msg), report s1) /\
   load_and_commit fromstring prepare check self filter_row (S fuel) sql s
     = Some (Raise (Error msg), report s1) /\
   stdout (report s1) = (stdout s1 ++ last_row_report (last_row s1))%list /\
   commits (db (report s1)) = commits (db s) /\
   committed (db (report s1)) = committed (db s)) /\
  (insert_from_xml fromstring prepare check self filter_row d path exist_ok
    = Some (Raise (Error msg), s') ->
   stdout s' = last_row_report (last_row s') /\
   (exists consumed,
      drop 2 path = (consumed ++ it s')%list /\
      last_row s' = last (yielded fromstring self filter_row consumed)) /\
   (prepare (insert_sql self exist_ok) = Some msg \/
    exists held vals, check held vals = Fatal msg) /\
   commits (db s') = commits d /\ committed (db s') = committed d).
Proof.
  split.
  - intros Hdone Hexec.
    assert (Hloop : loop (S fuel) sql s = Some (Raise (Error msg), report s1)).
    { simpl. by rewrite Hdone, Hexec. }
    split; [done|]. split; [unfold load_and_commit; by rewrite Hloop|].
    split; [simpl; by rewrite <- !app_assoc|].
    unfold executemany in Hexec.
    destruct (prepare sql) as [m|]; [by injection Hexec as <- <-|].
    by apply executemany_rows_suffix in Hexec as (? & ? & _).
  - destruct path as [|h1 [|h2 body]].
    + by rewrite insert_from_xml_short by (simpl; lia).
    + by rewrite insert_from_xml_short by (simpl; lia).
    + destruct (prepare (insert_sql self exist_ok)) as [m|] eqn:Hprep.
      * rewrite (insert_from_xml_unprepared _ _ _ _ _ m Hprep).
        intros [= -> <-]. split_and!; try done; [by exists []|by left].
      * rewrite (insert_from_xml_drain _ _ _ _ _ Hprep).
        destruct (pass body (started d body)) as [[u|e] s2] eqn:Hpass; [done|].
        intros [= -> ->].
        pose proof (drain_invariants _ _ _ _ Hpass) as (_ & _ & Hcnt & Hcomm & Hout).
        pose proof (drain_consumed _ _ _ _ Hpass) as (consumed & Hc & Hlast).
        pose proof (drain_error _ _ _ _ Hpass) as Herr.
        split_and!; try done.
        -- exists consumed. split; [done|]. rewrite Hlast. by destruct (last _).
        -- by right.
Qed.

(** What the store holds after a batch is what it held, then the rows it
    took, and every row of the batch was taken or dropped. *)
Lemma feed_extends held batch held' dropped :
  feed check held batch = Some (held', dropped) ->
  exists added, held' = (held ++ added)%list /\
                (length added + dropped = length batch)%nat.
Proof.
  revert held held' dropped.
  induction batch as [|vals batch IH]; intros held held' dropped; simpl.
  - intros [= <- <-]. exists []. by rewrite app_nil_r.
  - destruct (check held vals).
    + intros H. apply IH in H as (added & -> & Hlen).
      exists (vals :: added). rewrite <- app_assoc. split; [done|]. simpl. lia.
    + destruct (feed check held batch) as [[h n]|] eqn:Hf; [|done].
      intros [= <- <-]. apply IH in Hf as (added & -> & Hlen).
      exists added. split; [done|]. lia.
    + destruct (feed check held batch) as [[h n]|] eqn:Hf; [|done].
      intros [= <- <-]. apply IH in Hf as (added & -> & Hlen).
      exists added. split; [done|]. lia.
    + done.
Qed.

(** A pass over lines among whose record lines one does not parse ends
    with an exception. *)
Lemma drain_unparsed lines s :
  Exists (fun l => parses fromstring self filter_row l = false)
    (record_lines self lines) ->
  exists e s', pass lines s = (Raise e, s').
Proof.
  revert s. induction lines as [|l lines IH]; intros s; simpl.
  - intros HE. by apply Exists_nil in HE.
  - destruct (is_end l) eqn:Hl; [intros HE; by apply Exists_nil in HE|].
    intros HE. unfold parses in HE.
    destruct (body_of l) as [| |r|e] eqn:Hb.
    + apply pull_rows_body_break in Hb. congruence.
    + apply Exists_cons in HE as [HE|HE]; [by rewrite Hb in HE|by apply IH].
    + apply Exists_cons in HE as [HE|HE]; [by rewrite Hb in HE|].
      destruct (check _ _) as [| | |msg]; [by apply IH..|by eexists _, _].
    + by eexists _, _.
Qed.

(** An element that holds, for an integer column of the schema, a text that
    [int] refuses is a line that does not parse: [parse_row] raises. *)
Lemma non_numeric_line_unparsed bad root item :
  String.eqb (Py.strip bad) (endtag self) = false ->
  fromstring (Py.strip bad) = Some root ->
  item ∈ schema self ->
  non_numeric root item ->
  body_of bad = Throw ValueError.
Proof.
  intros Hend Hroot Hitem Hnn. unfold pull_rows_body.
  rewrite Hend, Hroot. unfold parse_row.
  rewrite parse_row_items_non_numeric; [done|].
  apply Exists_exists. eauto.
Qed.

(** C4. If a record line (a line after the two framing lines and before the
    closing tag) is an element that holds, for a column whose storage type
    starts with INTEGER, a text that [int] refuses, then the call raises to
    its caller and the store has not committed. On a store that compiles
    the statement and fails on no row for another reason than a constraint,
    the exception is the [ValueError] of [int], or the [ParseError] of an
    earlier line that is malformed, both of which the loop lets through
    without printing. *)
Theorem non_numeric_integer_aborts d h1 h2 body exist_ok bad root item :
  bad ∈ record_lines self body ->
  fromstring (Py.strip bad) = Some root ->
  item ∈ schema self ->
  non_numeric root item ->
  exists e s',
    insert_from_xml fromstring prepare check self filter_row d (h1 :: h2 :: body) exist_ok
      = Some (Raise e, s') /\
    commits (db s') = commits d /\
    committed (db s') = committed d /\
    (prepare (insert_sql self exist_ok) = None ->
     (forall held vals msg, check held vals <> Fatal msg) ->
     (e = ValueError \/ e = ParseError) /\ stdout s' = []).
Proof.
  intros Hbad Hroot Hitem Hnn.
  assert (Hun : Exists (fun l => parses fromstring self filter_row l = false)
                  (record_lines self body)).
  { apply Exists_exists. exists bad. split; [done|].
    pose proof (record_lines_Forall body) as HF. rewrite Forall_forall in HF.
    unfold parses.
    by rewrite (non_numeric_line_unparsed bad root item (HF bad Hbad) Hroot Hitem Hnn). }
  destruct (prepare (insert_sql self exist_ok)) as [m|] eqn:Hprep.
  - rewrite (insert_from_xml_unprepared _ _ _ _ _ m Hprep).
    eexists _, _. by split_and!.
  - rewrite (insert_from_xml_drain _ _ _ _ _ Hprep).
    destruct (drain_unparsed body (started d body) Hun) as (e & s' & Hpass).
    rewrite Hpass. exists e, s'.
    pose proof (drain_invariants _ _ _ _ Hpass) as (_ & _ & Hcnt & Hcomm & Hr).
    split_and!; [done..|].
    intros _ Hok. destruct e as [| | | |msg]; try done.
    + split; [by right|done].
    + split; [by left|done].
    + apply drain_error in Hpass as (held & vals & Hc). by destruct (Hok held vals msg).
Qed.

(** C5. For a well-formed file (two framing lines, then record lines that
    all parse) on a store that compiles the statement and fails on no row
    for another reason than a constraint, the call returns and has
    committed once; the table holds what it held and then the rows
    inserted, whose number is the number of record lines minus the lines
    that the filter discarded minus the rows dropped on an integrity
    violation, and is at most the number of record lines. With a filter
    that discards every row, no row is inserted and none is dropped, and
    the load is committed all the same. *)
Theorem inserted_rows_count d h1 h2 body exist_ok held dropped :
  prepare (insert_sql self exist_ok) = None ->
  Forall (fun l => parses fromstring self filter_row l = true)
    (record_lines self body) ->
  feed check (rows d)
    (map values (yielded fromstring self filter_row (record_lines self body)))
    = Some (held, dropped) ->
  exists s' inserted,
    insert_from_xml fromstring prepare check self filter_row d (h1 :: h2 :: body) exist_ok
      = Some (Ok (), s') /\
    rows (db s') = (rows d ++ inserted)%list /\
    committed (db s') = rows (db s') /\
    commits (db s') = S (commits d) /\
    (length inserted =
       length (record_lines self body)
       - discarded_count fromstring self filter_row (record_lines self body)
       - dropped)%nat /\
    (length inserted
       + discarded_count fromstring self filter_row (record_lines self body)
       + dropped = length (record_lines self body))%nat /\
    (length inserted <= length (record_lines self body))%nat /\
    ((exists f, filter_row = Some f /\ forall r, f r = None) ->
     inserted = [] /\ dropped = O).
Proof.
  intros Hprep Hpar Hfeed.
  destruct (insert_from_xml_succeeds d h1 h2 body exist_ok held dropped)
    as (s' & Hload & Hrows & Hcomm & Hcnt & _); [done..|].
  pose proof (feed_extends _ _ _ _ Hfeed) as (inserted & Hheld & Hlen).
  pose proof (yielded_count _ (record_lines_Forall body) Hpar) as Hy.
  rewrite length_map in Hlen.
  exists s', inserted. split_and!; try done; try congruence; try lia.
  intros (f & Hf & Hnone).
  rewrite (yielded_all_discarded _ f Hf Hnone) in Hlen. simpl in Hlen.
  split; [|lia]. destruct inserted; [done|simpl in Hlen; lia].
Qed.

(** The closing tag at the end of a body that holds none changes nothing
    to a pass that ends well; a pass that fails leaves it unread. *)
Lemma drain_closing body closing s :
  record_lines self body = body ->
  Py.strip closing = endtag self ->
  pass (body ++ [closing]) s =
    match pass body s with
    | (Ok u, s1) => (Ok u, s1)
    | (Raise e, s1) => (Raise e, set_it (it s1 ++ [closing]) s1)
    end.
Proof.
  intros Hbody Hclose. revert s Hbody.
  induction body as [|l body IH]; intros s Hbody; simpl.
  - assert (Hb : body_of closing = Break).
    { apply pull_rows_body_break. rewrite Hclose. apply String.eqb_refl. }
    by rewrite Hb.
  - simpl in Hbody. destruct (is_end l) eqn:Hl; [done|].
    injection Hbody as Hbody.
    destruct (body_of l) as [| |r|e] eqn:Hb.
    + apply pull_rows_body_break in Hb. congruence.
    + by apply IH.
    + destruct (check (rows (db s)) (values r)) as [| | |msg].
      * change (set_db (insert (values r) (db s))
                  (set_last_row (Some r) (set_it (body ++ [closing]) s)))
          with (set_it (body ++ [closing])
                  (set_db (insert (values r) (db s))
                     (set_last_row (Some r) (set_it body s)))).
        rewrite drain_set_it. by apply IH.
      * change (set_last_row (Some r) (set_it (body ++ [closing]) s))
          with (set_it (body ++ [closing]) (set_last_row (Some r) (set_it body s))).
        rewrite drain_set_it. by apply IH.
      * change (set_last_row (Some r) (set_it (body ++ [closing]) s))
          with (set_it (body ++ [closing]) (set_last_row (Some r) (set_it body s))).
        rewrite drain_set_it. by apply IH.
      * done.
    + done.
Qed.

(** C9. When the closing tag is on no line of the file, the call ends as
    it does on the same file with the closing tag added as last line: same
    result, and the same frame (store, handles, output), but for the
    closing tag that a failing call leaves unread. In particular, when the
    record lines all parse and the store fails on no row, the call returns
    with every row fed to the store and the load committed once. *)
Theorem missing_closing_tag d h1 h2 body closing exist_ok :
  record_lines self body = body ->
  Py.strip closing = endtag self ->
  (exists r s1,
     insert_from_xml fromstring prepare check self filter_row d (h1 :: h2 :: body) exist_ok
       = Some (r, s1) /\
     insert_from_xml fromstring prepare check self filter_row d (h1 :: h2 :: body ++ [closing]) exist_ok
       =
       Some (r, match r with
                | Ok _ => s1
                | Raise _ => set_it (it s1 ++ [closing]) s1
                end)) /\
  (forall held dropped,
     prepare (insert_sql self exist_ok) = None ->
     Forall (fun l => parses fromstring self filter_row l = true) body ->
     feed check (rows d) (map values (yielded fromstring self filter_row body))
       = Some (held, dropped) ->
     exists s',
       insert_from_xml fromstring prepare check self filter_row d (h1 :: h2 :: body) exist_ok
         = Some (Ok (), s') /\
       rows (db s') = held /\ committed (db s') = held /\
       commits (db s') = S (commits d) /\
       fd s' = Closed /\ cur s' = Closed).
Proof.
  intros Hbody Hclose. split.
  - destruct (prepare (insert_sql self exist_ok)) as [msg|] eqn:Hprep.
    + rewrite !(insert_from_xml_unprepared _ _ _ _ _ msg Hprep). by eexists _, _.
    + rewrite !(insert_from_xml_drain _ _ _ _ _ Hprep).
      change (started d (body ++ [closing]))
        with (set_it (body ++ [closing]) (started d body)).
      rewrite drain_set_it, (drain_closing _ _ _ Hbody Hclose).
      destruct (pass body (started d body)) as [[[]|e] s1]; by eexists _, _.
  - intros held dropped Hprep Hpar Hfeed.
    destruct (insert_from_xml_succeeds d h1 h2 body exist_ok held dropped)
      as (s' & ? & ? & ? & ? & ? & ? & _); [done|by rewrite Hbody..|].
    exists s'. by split_and!.
Qed.

End LoaderFacts.

(** ** A table with a primary key *)

Lemma value_eqb_eq a b : Store.value_eqb a b = true <-> a = b.
Proof.
  destruct a as [|n|s], b as [|m|t]; simpl; try done.
  - rewrite Z.eqb_eq. split; congruence.
  - rewrite String.eqb_eq. split; congruence.
Qed.

Lemma pk_check_accept held vals :
  Store.key vals ∉ map Store.key held -> Store.pk_check held vals = Accept.
Proof.
  intros Hk. unfold Store.pk_check.
  destruct (existsb _ held) eqn:He; [|done].
  apply existsb_exists in He as (r & Hr & Heq).
  apply value_eqb_eq in Heq. destruct Hk. rewrite <- Heq.
  apply list_elem_of_In, in_map, Hr.
Qed.

Lemma pk_check_conflict held vals :
  Store.key vals ∈ map Store.key held -> Store.pk_check held vals = Conflict.
Proof.
  intros Hk. unfold Store.pk_check.
  apply list_elem_of_In, in_map_iff in Hk as (r & Heq & Hr).
  replace (existsb _ held) with true; [done|].
  symmetry. apply existsb_exists. exists r. split; [done|].
  by apply value_eqb_eq.
Qed.

(** A key is none of the keys listed, by the inequalities at hand. *)
Ltac fresh_key :=
  simpl; rewrite ?not_elem_of_cons; repeat split;
  first [congruence | apply not_elem_of_nil].

Section PrimaryKey.

Context (fromstring : string -> option (gmap string string))
        (self : Table)
        (filter_row : option (row -> option row)).

Local Abbreviation body_of := (pull_rows_body fromstring self filter_row).

#[local] Arguments Store.pk_check : simpl never.

Lemma yield_is_record_line l r :
  body_of l = Yield r ->
  String.eqb (Py.strip l) (endtag self) = false /\
  parses fromstring self filter_row l = true.
Proof.
  intros Hb. split.
  - destruct (String.eqb _ _) eqn:He; [|done].
    apply (pull_rows_body_break fromstring self filter_row) in He. congruence.
  - unfold parses. by rewrite Hb.
Qed.

(** C1, as amended. For a file of five record lines whose third row has
    the primary key of the first (the other keys being distinct), loaded
    into an empty table whose first column is its primary key: with
    [exist_ok] set and with [exist_ok] not set alike, the call returns, no
    error reaches the caller, nothing is printed, and exactly the four
    rows one, two, four and five are committed. *)
Theorem duplicate_key_dropped_either_way
    h1 h2 l1 l2 l3 l4 l5 rest r1 r2 r3 r4 r5 exist_ok :
  body_of l1 = Yield r1 -> body_of l2 = Yield r2 -> body_of l3 = Yield r3 ->
  body_of l4 = Yield r4 -> body_of l5 = Yield r5 ->
  record_lines self rest = [] ->
  Store.key (values r3) = Store.key (values r1) ->
  NoDup [Store.key (values r1); Store.key (values r2);
         Store.key (values r4); Store.key (values r5)] ->
  exists s',
    insert_from_xml fromstring Store.prepare_ok Store.pk_check self filter_row
      Store.empty (h1 :: h2 :: l1 :: l2 :: l3 :: l4 :: l5 :: rest) exist_ok
      = Some (Ok (), s') /\
    committed (db s') = [values r1; values r2; values r4; values r5] /\
    length (committed (db s')) = 4%nat /\
    commits (db s') = 1%nat /\
    stdout s' = [].
Proof.
  intros H1 H2 H3 H4 H5 Hrest Hdup Hnd.
  pose proof (yield_is_record_line _ _ H1) as [E1 P1].
  pose proof (yield_is_record_line _ _ H2) as [E2 P2].
  pose proof (yield_is_record_line _ _ H3) as [E3 P3].
  pose proof (yield_is_record_line _ _ H4) as [E4 P4].
  pose proof (yield_is_record_line _ _ H5) as [E5 P5].
  assert (Hrecs : record_lines self (l1 :: l2 :: l3 :: l4 :: l5 :: rest)
                  = [l1; l2; l3; l4; l5]).
  { simpl. by rewrite E1, E2, E3, E4, E5, Hrest. }
  apply NoDup_cons in Hnd as [N1 Hnd]. apply NoDup_cons in Hnd as [N2 Hnd].
  apply NoDup_cons in Hnd as [N4 _].
  rewrite !not_elem_of_cons in N1. rewrite !not_elem_of_cons in N2.
  rewrite !not_elem_of_cons in N4.
  destruct N1 as (N12 & N14 & N15 & _), N2 as (N24 & N25 & _), N4 as (N45 & _).
  destruct (insert_from_xml_succeeds fromstring Store.prepare_ok Store.pk_check
              self filter_row Store.empty h1 h2
              (l1 :: l2 :: l3 :: l4 :: l5 :: rest) exist_ok
              [values r1; values r2; values r4; values r5] 1)
    as (s' & Hload & _ & Hcomm & Hcnt & _ & _ & Hout & _).
  - done.
  - rewrite Hrecs. by repeat constructor.
  - rewrite Hrecs. unfold yielded. simpl. rewrite H1, H2, H3, H4, H5. simpl.
    rewrite (pk_check_accept [values r1] (values r2)) by fresh_key. simpl.
    rewrite (pk_check_conflict [values r1; values r2] (values r3))
      by (simpl; rewrite Hdup; left).
    rewrite (pk_check_accept [values r1; values r2] (values r4)) by fresh_key.
    simpl.
    rewrite (pk_check_accept [values r1; values r2; values r4] (values r5))
      by fresh_key.
    done.
  - exists s'. rewrite Hcomm. by split_and!.
Qed.

End PrimaryKey.

(** ** Table.create_if_not_exists *)




(** ** The claims at work on the example files *)

Lemma pk_check_never_fatal held vals msg : Store.pk_check held vals <> Fatal msg.
Proof. unfold Store.pk_check. by destruct (existsb _ held). Qed.

Lemma parse_row_one_entry_per_column_witness :
  NoDup (map fst (schema sites)) /\
  match parse_row sites Records.site with
  | Ok r =>
      map fst r = map fst (schema sites) /\
      length r = length (schema sites) /\
      Forall2 (entry_of Records.site) (schema sites) r
  | Raise e => e = ValueError /\ Exists (non_numeric Records.site) (schema sites)
  end.
Proof.
  assert (Hnd : NoDup (map fst (schema sites))).
  { apply (bool_decide_unpack _). by vm_compute. }
  split; [exact Hnd|].
  exact (parse_row_one_entry_per_column sites Records.site Hnd).
Defined.

Lemma insert_from_xml_short_file_witness :
  (length [Examples.declaration] < 2)%nat /\
  exists s',
    insert_from_xml Xml.fromstring Store.prepare_ok Store.pk_check sites None
      Store.empty [Examples.declaration] false = Some (Raise StopIteration, s') /\
    db s' = Store.empty /\ last_row s' = None /\ cur s' = Absent /\
    stdout s' = [] /\ done s' = false.
Proof.
  assert (Hlen : (length [Examples.declaration] < 2)%nat) by (simpl; lia).
  split; [exact Hlen|].
  exact (insert_from_xml_short_file Xml.fromstring Store.prepare_ok Store.pk_check
           sites None Store.empty [Examples.declaration] false Hlen).
Defined.


Lemma store_error_is_fatal_witness :
  done Examples.at_loop = false /\
  executemany Xml.fromstring Store.prepare_ok Store.broken_check sites None
    7 (insert_sql sites false) Examples.at_loop
    = Some (Raise (Error "disk I/O error"), Examples.after_failure) /\
  while_not_done Xml.fromstring Store.prepare_ok Store.broken_check sites None
    7 (insert_sql sites false) Examples.at_loop
    = Some (Raise (Error "disk I/O error"), report Examples.after_failure) /\
  stdout (report Examples.after_failure)
    = last_row_report (last_row Examples.after_failure) /\
  commits (db (report Examples.after_failure)) = O /\
  insert_from_xml Xml.fromstring Store.prepare_ok Store.broken_check sites None
    Store.empty Examples.duplicate_key false
    = Some (Raise (Error "disk I/O error"), report Examples.after_failure) /\
  exists consumed,
    drop 2 Examples.duplicate_key
      = (consumed ++ it (report Examples.after_failure))%list /\
    last_row (report Examples.after_failure)
      = last (yielded Xml.fromstring sites None consumed).
Proof.
  assert (Hdone : done Examples.at_loop = false) by reflexivity.
  assert (Hexec : executemany Xml.fromstring Store.prepare_ok Store.broken_check
                    sites None 7 (insert_sql sites false) Examples.at_loop
                  = Some (Raise (Error "disk I/O error"), Examples.after_failure))
    by (vm_compute; reflexivity).
  destruct (proj1 (store_error_is_fatal Xml.fromstring Store.prepare_ok
                     Store.broken_check sites None 6 (insert_sql sites false)
                     Examples.at_loop Examples.after_failure "disk I/O error"
                     Store.empty Examples.duplicate_key false
                     (report Examples.after_failure))
              Hdone Hexec)
    as (Hloop & _ & Hout & Hcnt & _).
  assert (Hload : insert_from_xml Xml.fromstring Store.prepare_ok
                    Store.broken_check sites None Store.empty
                    Examples.duplicate_key false
                  = Some (Raise (Error "disk I/O error"),
                          report Examples.after_failure))
    by (vm_compute; reflexivity).
  destruct (proj2 (store_error_is_fatal Xml.fromstring Store.prepare_ok
                     Store.broken_check sites None 6 (insert_sql sites false)
                     Examples.at_loop Examples.after_failure "disk I/O error"
                     Store.empty Examples.duplicate_key false
                     (report Examples.after_failure))
              Hload)
    as (_ & Hcons & _).
  split; [exact Hdone|]. split; [exact Hexec|]. split; [exact Hloop|].
  split; [exact Hout|]. split; [exact Hcnt|]. split; [exact Hload|exact Hcons].
Defined.

Lemma non_numeric_integer_aborts_witness :
  "  <row Id='two' Url='b.example' Name='B' />"
    ∈ record_lines sites (drop 2 Examples.bad_integer) /\
  Xml.fromstring (Py.strip "  <row Id='two' Url='b.example' Name='B' />")
    = Some Records.bad_site /\
  non_numeric Records.bad_site ("id", (Some "Id", "INTEGER PRIMARY KEY")) /\
  exists e s',
    insert_from_xml Xml.fromstring Store.prepare_ok Store.pk_check sites None
      Store.empty Examples.bad_integer true = Some (Raise e, s') /\
    (e = ValueError \/ e = ParseError) /\
    commits (db s') = O /\ committed (db s') = [] /\ stdout s' = [].
Proof.
  assert (Hbad : "  <row Id='two' Url='b.example' Name='B' />"
                   ∈ record_lines sites (drop 2 Examples.bad_integer)).
  { apply list_elem_of_In. vm_compute. right. left. reflexivity. }
  assert (Hroot : Xml.fromstring
                    (Py.strip "  <row Id='two' Url='b.example' Name='B' />")
                  = Some Records.bad_site) by (vm_compute; reflexivity).
  assert (Hitem : ("id", (Some "Id", "INTEGER PRIMARY KEY")) ∈ schema sites).
  { apply list_elem_of_In. left. reflexivity. }
  assert (Hnn : non_numeric Records.bad_site
                  ("id", (Some "Id", "INTEGER PRIMARY KEY"))).
  { exists "Id", "two". repeat split; vm_compute; reflexivity. }
  split; [exact Hbad|]. split; [exact Hroot|]. split; [exact Hnn|].
  destruct (non_numeric_integer_aborts Xml.fromstring Store.prepare_ok
              Store.pk_check sites None Store.empty
              Examples.declaration "<sites>" (drop 2 Examples.bad_integer) true
              "  <row Id='two' Url='b.example' Name='B' />" Records.bad_site
              ("id", (Some "Id", "INTEGER PRIMARY KEY"))
              Hbad Hroot Hitem Hnn)
    as (e & s' & Hload & Hcnt & Hcomm & Hkind).
  destruct (Hkind eq_refl pk_check_never_fatal) as [He Hout].
  exists e, s'. split; [exact Hload|]. split; [exact He|].
  split; [exact Hcnt|]. split; [exact Hcomm|exact Hout].
Defined.

Lemma inserted_rows_count_witness :
  Forall (fun l => parses Xml.fromstring sites None l = true)
    (record_lines sites (drop 2 Examples.duplicate_key)) /\
  feed Store.pk_check []
    (map values (yielded Xml.fromstring sites None
                   (record_lines sites (drop 2 Examples.duplicate_key))))
    = Some (Examples.four_rows, 1%nat) /\
  exists s' inserted,
    insert_from_xml Xml.fromstring Store.prepare_ok Store.pk_check sites None
      Store.empty Examples.duplicate_key false = Some (Ok (), s') /\
    rows (db s') = inserted /\
    committed (db s') = rows (db s') /\
    commits (db s') = 1%nat /\
    length inserted = 4%nat.
Proof.
  assert (Hpar : Forall (fun l => parses Xml.fromstring sites None l = true)
                   (record_lines sites (drop 2 Examples.duplicate_key))).
  { apply (bool_decide_unpack _). by vm_compute. }
  assert (Hfeed : feed Store.pk_check (rows Store.empty)
                    (map values (yielded Xml.fromstring sites None
                       (record_lines sites (drop 2 Examples.duplicate_key))))
                  = Some (Examples.four_rows, 1%nat))
    by (vm_compute; reflexivity).
  destruct (inserted_rows_count Xml.fromstring Store.prepare_ok Store.pk_check
              sites None Store.empty Examples.declaration "<sites>"
              (drop 2 Examples.duplicate_key) false Examples.four_rows 1
              eq_refl Hpar Hfeed)
    as (s' & inserted & Hload & Hrows & Hcomm & Hcnt & Hlen & _).
  split; [exact Hpar|]. split; [exact Hfeed|].
  exists s', inserted. split; [exact Hload|]. split; [exact Hrows|].
  split; [exact Hcomm|]. split; [exact Hcnt|exact Hlen].
Defined.

Lemma missing_closing_tag_witness :
  record_lines sites (drop 2 Examples.unclosed) = drop 2 Examples.unclosed /\
  Py.strip "</sites>" = endtag sites /\
  (exists r s1,
     insert_from_xml Xml.fromstring Store.prepare_ok Store.pk_check sites None
       Store.empty Examples.unclosed false = Some (r, s1) /\
     insert_from_xml Xml.fromstring Store.prepare_ok Store.pk_check sites None
       Store.empty (Examples.unclosed ++ ["</sites>"]) false
       = Some (r, match r with
                  | Ok _ => s1
                  | Raise _ => set_it (it s1 ++ ["</sites>"]) s1
                  end)) /\
  exists s',
    insert_from_xml Xml.fromstring Store.prepare_ok Store.pk_check sites None
      Store.empty Examples.unclosed false = Some (Ok (), s') /\
    length (committed (db s')) = 2%nat /\ commits (db s') = 1%nat.
Proof.
  assert (Hbody : record_lines sites (drop 2 Examples.unclosed)
                  = drop 2 Examples.unclosed) by (vm_compute; reflexivity).
  assert (Hclose : Py.strip "</sites>" = endtag sites) by (vm_compute; reflexivity).
  destruct (missing_closing_tag Xml.fromstring Store.prepare_ok Store.pk_check
              sites None Store.empty Examples.declaration "<sites>"
              (drop 2 Examples.unclosed) "</sites>" false Hbody Hclose)
    as [Hsame Hgood].
  split; [exact Hbody|]. split; [exact Hclose|]. split; [exact Hsame|].
  destruct (Hgood (firstn 2 Examples.four_rows) O eq_refl)
    as (s' & Hload & _ & Hcomm & Hcnt & _).
  - apply (bool_decide_unpack _). by vm_compute.
  - vm_compute. reflexivity.
  - exists s'. split; [exact Hload|]. split; [by rewrite Hcomm|exact Hcnt].
Defined.

Lemma duplicate_key_dropped_either_way_witness :
  (exists s',
     insert_from_xml Xml.fromstring Store.prepare_ok Store.pk_check sites None
       Store.empty Examples.duplicate_key true = Some (Ok (), s') /\
     committed (db s') = Examples.four_rows /\
     length (committed (db s')) = 4%nat /\
     commits (db s') = 1%nat /\
     stdout s' = []) /\
  (exists s',
     insert_from_xml Xml.fromstring Store.prepare_ok Store.pk_check sites None
       Store.empty Examples.duplicate_key false = Some (Ok (), s') /\
     committed (db s') = Examples.four_rows /\
     length (committed (db s')) = 4%nat /\
     commits (db s') = 1%nat /\
     stdout s' = []).
Proof.
  assert (Hboth : forall exist_ok, exists s',
            insert_from_xml Xml.fromstring Store.prepare_ok Store.pk_check
              sites None Store.empty Examples.duplicate_key exist_ok
              = Some (Ok (), s') /\
            committed (db s') = Examples.four_rows /\
            length (committed (db s')) = 4%nat /\
            commits (db s') = 1%nat /\
            stdout s' = []).
  { intros exist_ok.
    eapply (duplicate_key_dropped_either_way Xml.fromstring sites None
              Examples.declaration "<sites>"
              "  <row Id='1' Url='a.example' Name='A' />"
              "  <row Id='2' Url='b.example' Name='B' />"
              "  <row Id='1' Url='c.example' Name='C' />"
              "  <row Id='4' Url='d.example' Name='D' ParentId='1' />"
              "  <row Id='5' Url='e.example' Name='E' />"
              ["</sites>"]
              [("id", VInt 1); ("url", VStr "a.example"); ("tiny_name", VNone);
               ("long_name", VNone); ("name", VStr "A"); ("parent_id", VNone);
               ("tagline", VNone); ("badge_icon_url", VNone)]
              [("id", VInt 2); ("url", VStr "b.example"); ("tiny_name", VNone);
               ("long_name", VNone); ("name", VStr "B"); ("parent_id", VNone);
               ("tagline", VNone); ("badge_icon_url", VNone)]
              [("id", VInt 1); ("url", VStr "c.example"); ("tiny_name", VNone);
               ("long_name", VNone); ("name", VStr "C"); ("parent_id", VNone);
               ("tagline", VNone); ("badge_icon_url", VNone)]
              [("id", VInt 4); ("url", VStr "d.example"); ("tiny_name", VNone);
               ("long_name", VNone); ("name", VStr "D"); ("parent_id", VInt 1);
               ("tagline", VNone); ("badge_icon_url", VNone)]
              [("id", VInt 5); ("url", VStr "e.example"); ("tiny_name", VNone);
               ("long_name", VNone); ("name", VStr "E"); ("parent_id", VNone);
               ("tagline", VNone); ("badge_icon_url", VNone)]
              exist_ok).
    - vm_compute; reflexivity.
    - vm_compute; reflexivity.
    - vm_compute; reflexivity.
    - vm_compute; reflexivity.
    - vm_compute; reflexivity.
    - vm_compute; reflexivity.
    - reflexivity.
    - simpl. repeat (apply NoDup_cons; split; [fresh_key|]). apply NoDup_nil_2. }
  split; [exact (Hboth true)|exact (Hboth false)].
Defined.

(** ** Where the claims C1 and C3 fail as they are written *)

(** C1 says that without [exist_ok] the duplicate key of the third record
    line reaches the caller as a fatal integrity violation. The call returns
    instead, as it does with [exist_ok], and the four other rows are
    committed: the [except IntegrityError] clause passes over the row. *)
Lemma exist_ok_false_raises_no_integrity_error :
  let run := insert_from_xml Xml.fromstring Store.prepare_ok Store.pk_check
               sites None Store.empty Examples.duplicate_key false in
  fst <$> run = Some (Ok ()) /\
  fst <$> run <> Some (Raise IntegrityError) /\
  (fun p => committed (db p.2)) <$> run = Some Examples.four_rows.
Proof. vm_compute. by split_and!. Qed.

(** C3 says that the file handle and the cursor are released on every exit
    path. On the file whose second record line holds a text that is no
    number, the call raises [ValueError] and both are still open. *)
Lemma fatal_exit_keeps_handles_open :
  let run := insert_from_xml Xml.fromstring Store.prepare_ok Store.pk_check
               sites None Store.empty Examples.bad_integer false in
  fst <$> run = Some (Raise ValueError) /\
  (fun p => fd p.2) <$> run = Some Open /\
  (fun p => cur p.2) <$> run = Some Open.
Proof. vm_compute. by split_and!. Qed.

(** * Further properties of the module *)

(** ** Table.parse_row and the statement of the batch insert *)

Lemma parse_row_items_agree items (attrib attrib' : gmap string string) vals :
  (forall col attr typ,
     (col, (Some attr, typ)) ∈ items -> attrib !! attr = attrib' !! attr) ->
  parse_row_items items attrib vals = parse_row_items items attrib' vals.
Proof.
  revert vals.
  induction items as [|[col [attr typ]] items IH]; intros vals Hagree; simpl.
  - reflexivity.
  - assert (Htail : forall c a t,
              (c, (Some a, t)) ∈ items -> attrib !! a = attrib' !! a).
    { intros c a t Hin. apply (Hagree c a t). by right. }
    destruct attr as [a|]; simpl.
    + rewrite <- (Hagree col a typ) by left.
      destruct (attrib !! a) as [v|]; [|by apply IH].
      destruct (Py.startswith typ "INTEGER"); [|by apply IH].
      destruct (Py.int v); [by apply IH|done].
    + by apply IH.
Qed.

(** X1. [parse_row] reads the record only through the source attributes that
    the schema names: two records that agree on these give the same row, or
    the same [ValueError]; attributes that no column asks for are ignored. *)
Theorem parse_row_reads_named_attributes (self : Table)
    (attrib attrib' : gmap string string) :
  (forall col attr typ,
     (col, (Some attr, typ)) ∈ schema self -> attrib !! attr = attrib' !! attr) ->
  parse_row self attrib = parse_row self attrib'.
Proof. intros Hagree. by apply parse_row_items_agree. Qed.

Lemma parse_row_items_absent items (attrib : gmap string string) vals :
  NoDup (map fst vals ++ map fst items) ->
  (forall col attr typ, (col, (Some attr, typ)) ∈ items -> attrib !! attr = None) ->
  parse_row_items items attrib vals
    = Ok (vals ++ map (fun item => (item.1, VNone)) items)%list.
Proof.
  revert vals.
  induction items as [|[col [attr typ]] items IH]; intros vals Hnd Habs; simpl.
  - by rewrite app_nil_r.
  - assert (Hcol : col ∉ map fst vals).
    { apply NoDup_app in Hnd as (_ & Hdis & _). intros Hin.
      apply (Hdis col Hin). simpl. left. }
    assert (Hnone : attr ≫= (attrib !!.) = None).
    { destruct attr as [a|]; [|done]. simpl. apply (Habs col a typ). left. }
    rewrite Hnone, od_set_lookup_fresh by done.
    rewrite IH.
    + by rewrite <- app_assoc.
    + rewrite map_app. simpl. by rewrite <- app_assoc.
    + intros c a t Hin. apply (Habs c a t). by right.
Qed.

(** X2. On a record that holds none of the source attributes of the schema
    (the empty record, say) [parse_row] raises nothing and returns the row
    that binds every column to [None], in declaration order, whatever the
    storage types are: a NOT NULL column gets [None] like the others. *)
Theorem parse_row_missing_attributes (self : Table) (attrib : gmap string string) :
  NoDup (map fst (schema self)) ->
  (forall col attr typ,
     (col, (Some attr, typ)) ∈ schema self -> attrib !! attr = None) ->
  parse_row self attrib = Ok (map (fun item => (item.1, VNone)) (schema self)) /\
  (forall r, parse_row self attrib = Ok r ->
             Forall (fun v => v = VNone) (values r)).
Proof.
  intros Hnd Habs. unfold parse_row.
  rewrite (parse_row_items_absent (schema self) attrib [] Hnd Habs).
  split; [done|]. intros r [= <-]. unfold values. simpl.
  apply Forall_forall. intros v Hv.
  apply list_elem_of_fmap in Hv as ([k w] & -> & Hkw).
  by apply list_elem_of_fmap in Hkw as (item & [= _ ->] & _).
Qed.

(** X3. A row that [parse_row] returns fits the statement of the batch
    insert position by position: the column list of the statement is the
    list of the keys of the row, in the same order, and the statement has
    one placeholder for each value of the row. *)
Theorem insert_sql_matches_row (self : Table) (attrib : gmap string string)
    (r : row) (exist_ok : bool) :
  NoDup (map fst (schema self)) ->
  parse_row self attrib = Ok r ->
  insert_sql self exist_ok =
    "INSERT" ++ (if exist_ok then " OR IGNORE" else "") ++ " INTO " ++ name self
      ++ " (" ++ Py.join "," (map fst r) ++ ") VALUES ("
      ++ Py.join "," (map (fun _ => "?") (values r)) ++ ");" /\
  length (values r) = length (schema self).
Proof.
  intros Hnd Hrow. unfold parse_row in Hrow.
  pose proof (parse_row_items_entries attrib (schema self) [] Hnd) as H.
  rewrite Hrow in H. destruct H as (r' & -> & HF). simpl.
  pose proof (entry_of_keys attrib _ _ HF) as Hkeys.
  assert (Hlen : length r' = length (schema self))
    by (symmetry; by eapply Forall2_length).
  assert (Hmarks : map (fun _ : value => "?") (map snd r')
                   = map (fun _ => "?") (schema self)).
  { clear Hkeys Hrow HF Hnd. revert r' Hlen.
    induction (schema self) as [|item items IH]; intros [|kv r'] Hlen;
      simpl in *; try done.
    f_equal. apply IH. lia. }
  split.
  - unfold insert_sql, values. by rewrite Hkeys, Hmarks.
  - unfold values. by rewrite length_map.
Qed.

(** ** Table.insert_from_xml: what it reads, what it leaves *)

Section LoaderExtras.

Context (fromstring : string -> option (gmap string string))
        (prepare : string -> option string)
        (check : list (list value) -> list value -> verdict)
        (self : Table)
        (filter_row : option (row -> option row)).

Local Abbreviation body_of := (pull_rows_body fromstring self filter_row).
Local Abbreviation pass := (drain fromstring check self filter_row).
Local Abbreviation load := (insert_from_xml fromstring prepare check self filter_row).
Local Abbreviation is_end := (fun l => String.eqb (Py.strip l) (endtag self)).

(** X4. The first two lines of the file are skipped unseen: the call gives
    the same result and leaves the same frame whatever they hold, be it a
    record line or the closing tag. A record on the second line is lost. *)
Theorem framing_lines_unread d h1 h2 h1' h2' body exist_ok :
  insert_from_xml fromstring prepare check self filter_row d (h1 :: h2 :: body) exist_ok
    = insert_from_xml fromstring prepare check self filter_row d (h1' :: h2' :: body) exist_ok.
Proof.
  destruct (prepare (insert_sql self exist_ok)) as [msg|] eqn:Hprep.
  - by rewrite !(insert_from_xml_unprepared _ _ _ _ _ _ _ _ _ _ msg Hprep).
  - by rewrite !(insert_from_xml_drain _ _ _ _ _ _ _ _ _ _ Hprep).
Qed.

(** The pass stops on the closing tag: what follows it stays in the
    iterator. *)
Lemma drain_after_closing body closing after s :
  record_lines self body = body ->
  Py.strip closing = endtag self ->
  pass (body ++ closing :: after) s =
    (let (r, s1) := pass (body ++ [closing]) s in
     (r, set_it (it s1 ++ after) s1)).
Proof.
  intros Hbody Hclose. revert s Hbody.
  induction body as [|l body IH]; intros s Hbody; simpl.
  - assert (Hb : body_of closing = Break).
    { apply pull_rows_body_break. rewrite Hclose. apply String.eqb_refl. }
    by rewrite Hb.
  - simpl in Hbody. destruct (is_end l) eqn:Hl; [done|].
    injection Hbody as Hbody.
    assert (Hcat : ((body ++ [closing]) ++ after = body ++ closing :: after)%list)
      by (by rewrite <- app_assoc).
    destruct (body_of l) as [| |r|e] eqn:Hb.
    + apply pull_rows_body_break in Hb. congruence.
    + by apply IH.
    + destruct (check (rows (db s)) (values r)) as [| | |msg].
      * change (set_db (insert (values r) (db s))
                  (set_last_row (Some r) (set_it (body ++ closing :: after) s)))
          with (set_it (body ++ closing :: after)
                  (set_db (insert (values r) (db s)) (set_last_row (Some r) s))).
        change (set_db (insert (values r) (db s))
                  (set_last_row (Some r) (set_it (body ++ [closing]) s)))
          with (set_it (body ++ [closing])
                  (set_db (insert (values r) (db s)) (set_last_row (Some r) s))).
        rewrite !drain_set_it. by apply IH.
      * change (set_last_row (Some r) (set_it (body ++ closing :: after) s))
          with (set_it (body ++ closing :: after) (set_last_row (Some r) s)).
        change (set_last_row (Some r) (set_it (body ++ [closing]) s))
          with (set_it (body ++ [closing]) (set_last_row (Some r) s)).
        rewrite !drain_set_it. by apply IH.
      * change (set_last_row (Some r) (set_it (body ++ closing :: after) s))
          with (set_it (body ++ closing :: after) (set_last_row (Some r) s)).
        change (set_last_row (Some r) (set_it (body ++ [closing]) s))
          with (set_it (body ++ [closing]) (set_last_row (Some r) s)).
        rewrite !drain_set_it. by apply IH.
      * unfold report, print, set_it, set_last_row. simpl. by rewrite Hcat.
    + unfold set_it. simpl. by rewrite Hcat.
Qed.

(** X5. Nothing is read after the closing tag: with any lines added after
    it the call ends with the same result, the same store, handles and
    output, and the added lines are still in the iterator, unread, so
    neither parsed nor inserted. *)
Theorem lines_after_closing_tag_unread d h1 h2 body closing after exist_ok :
  record_lines self body = body ->
  Py.strip closing = endtag self ->
  exists r s1,
    insert_from_xml fromstring prepare check self filter_row d
      (h1 :: h2 :: body ++ [closing]) exist_ok = Some (r, s1) /\
    insert_from_xml fromstring prepare check self filter_row d
      (h1 :: h2 :: body ++ closing :: after) exist_ok
      = Some (r, set_it (it s1 ++ after) s1).
Proof.
  intros Hbody Hclose.
  assert (Hcat : ((body ++ [closing]) ++ after = body ++ closing :: after)%list)
    by (by rewrite <- app_assoc).
  destruct (prepare (insert_sql self exist_ok)) as [msg|] eqn:Hprep.
  - rewrite !(insert_from_xml_unprepared _ _ _ _ _ _ _ _ _ _ msg Hprep).
    eexists _, _. split; [done|].
    unfold report, print, set_it, started. simpl. by rewrite Hcat.
  - rewrite !(insert_from_xml_drain _ _ _ _ _ _ _ _ _ _ Hprep).
    change (started d (body ++ closing :: after))
      with (set_it (body ++ closing :: after) (started d [])).
    change (started d (body ++ [closing]))
      with (set_it (body ++ [closing]) (started d [])).
    rewrite !drain_set_it, (drain_after_closing body closing after _ Hbody Hclose).
    destruct (pass (body ++ [closing]) (started d [])) as [[[]|e] s1];
      by eexists _, _.
Qed.

(** X6. The flag [exist_ok] changes the statement and nothing else that the
    caller can see: on a store that answers alike to the compilation of the
    two statements, the call gives the same result and leaves the same
    frame with and without it. A row rejected on a constraint is dropped in
    both cases, by OR IGNORE in the one, by the [except] clause in the
    other. *)
Theorem exist_ok_makes_no_difference d path :
  prepare (insert_sql self true) = prepare (insert_sql self false) ->
  insert_from_xml fromstring prepare check self filter_row d path true
    = insert_from_xml fromstring prepare check self filter_row d path false.
Proof.
  intros Hsame. destruct path as [|h1 [|h2 body]]; [done..|].
  destruct (prepare (insert_sql self false)) as [msg|] eqn:Hprep.
  - by rewrite (insert_from_xml_unprepared _ _ _ _ _ _ _ _ _ _ msg Hsame),
               (insert_from_xml_unprepared _ _ _ _ _ _ _ _ _ _ msg Hprep).
  - by rewrite (insert_from_xml_drain _ _ _ _ _ _ _ _ _ _ Hsame),
               (insert_from_xml_drain _ _ _ _ _ _ _ _ _ _ Hprep).
Qed.

(** X7. The [while] loop always ends, after at most one turn for each line
    that the iterator holds and one more: run with any number of turns
    above the number of lines of the body, the call returns or raises, and
    the result is the one of [insert_from_xml]. A turn that ends on an
    integrity violation has taken at least one line, so the loop cannot
    turn for ever on the same row. *)
Theorem insert_from_xml_terminates d path exist_ok fuel :
  (length path < fuel + 2)%nat ->
  insert_from_xml_fuel fromstring prepare check self filter_row fuel d path exist_ok
    = insert_from_xml fromstring prepare check self filter_row d path exist_ok /\
  exists r s',
    insert_from_xml fromstring prepare check self filter_row d path exist_ok
      = Some (r, s').
Proof.
  intros Hfuel. split; [|apply insert_from_xml_total].
  destruct path as [|h1 [|h2 body]]; [done..|].
  simpl in Hfuel.
  change (insert_from_xml_fuel fromstring prepare check self filter_row fuel d
            (h1 :: h2 :: body) exist_ok)
    with (load_and_commit fromstring prepare check self filter_row
            fuel (insert_sql self exist_ok) (started d body)).
  unfold load_and_commit.
  destruct (prepare (insert_sql self exist_ok)) as [msg|] eqn:Hprep.
  - rewrite (insert_from_xml_unprepared _ _ _ _ _ _ _ _ _ _ msg Hprep).
    destruct fuel as [|fuel]; [lia|].
    by rewrite (while_not_done_unprepared _ _ _ _ _ _ _ (started d body) msg Hprep).
  - rewrite (insert_from_xml_drain _ _ _ _ _ _ _ _ _ _ Hprep).
    rewrite (while_not_done_drain _ _ _ _ _ _ _ (started d body) Hprep);
      [|simpl; lia|done].
    simpl. by destruct (pass body (started d body)) as [[[]|e] s'].
Qed.

(** X8. The call raises [StopIteration] exactly when the file has fewer
    than two lines: once the framing lines are skipped, the end of the file
    ends the generator and is no error. *)
Theorem stop_iteration_iff_short_file d path exist_ok :
  (exists s',
     insert_from_xml fromstring prepare check self filter_row d path exist_ok
       = Some (Raise StopIteration, s'))
  <-> (length path < 2)%nat.
Proof.
  split.
  - intros [s' Hload]. destruct path as [|h1 [|h2 body]]; [simpl; lia..|].
    exfalso. revert Hload.
    destruct (prepare (insert_sql self exist_ok)) as [msg|] eqn:Hprep.
    + by rewrite (insert_from_xml_unprepared _ _ _ _ _ _ _ _ _ _ msg Hprep).
    + rewrite (insert_from_xml_drain _ _ _ _ _ _ _ _ _ _ Hprep).
      destruct (pass body (started d body)) as [[u|e] s1] eqn:Hpass; [done|].
      intros [= -> _].
      by apply drain_invariants in Hpass as (_ & _ & _ & _ & ?).
  - intros Hlen. rewrite insert_from_xml_short by done. by eexists.
Qed.

(** The pass adds rows at the end of the table; the rows added are rows
    that the record lines yield, in the order of the file and each at most
    once. *)
Lemma drain_appends lines s r s' :
  pass lines s = (r, s') ->
  exists added,
    rows (db s') = (rows (db s) ++ added)%list /\
    added `sublist_of`
      map values (yielded fromstring self filter_row (record_lines self lines)).
Proof.
  revert s. induction lines as [|l lines IH]; intros s; simpl.
  - intros [= <- <-]. exists []. by rewrite app_nil_r.
  - destruct (is_end l) eqn:Hl.
    + apply (pull_rows_body_break fromstring self filter_row) in Hl. rewrite Hl.
      intros [= <- <-]. exists []. by rewrite app_nil_r.
    + unfold yielded. simpl.
      destruct (body_of l) as [| |row|e] eqn:Hb.
      * apply pull_rows_body_break in Hb. congruence.
      * apply IH.
      * simpl. destruct (check _ _) as [| | |msg].
        -- intros H. apply IH in H as (added & Hrows & Hsub). simpl in Hrows.
           exists (values row :: added). rewrite Hrows, <- app_assoc.
           split; [done|]. by apply sublist_skip.
        -- intros H. apply IH in H as (added & Hrows & Hsub).
           exists added. split; [done|]. by apply sublist_cons.
        -- intros H. apply IH in H as (added & Hrows & Hsub).
           exists added. split; [done|]. by apply sublist_cons.
        -- intros [= <- <-]. exists []. rewrite app_nil_r.
           split; [done|]. apply sublist_nil_l.
      * intros [= <- <-]. exists []. rewrite app_nil_r.
        split; [done|]. apply sublist_nil_l.
Qed.

(** X9. The call only adds rows at the end of the table: the rows that the
    connection held, committed or not, are still there, unchanged and in
    place, and the rows added are rows that the record lines of the file
    yield (after the filter), in the order of the file, none of them twice,
    even when batches were cut short by integrity violations. When the call
    returns, the commit covers the rows that were pending before the call
    as well; when it raises, the rows added so far stay in the open
    transaction: there is no rollback. *)
Theorem rows_are_only_appended d path exist_ok :
  exists r s' added,
    insert_from_xml fromstring prepare check self filter_row d path exist_ok
      = Some (r, s') /\
    rows (db s') = (rows d ++ added)%list /\
    added `sublist_of`
      map values (yielded fromstring self filter_row
                    (record_lines self (drop 2 path))) /\
    match r with
    | Ok _ => committed (db s') = (rows d ++ added)%list
    | Raise _ => committed (db s') = committed d
    end.
Proof.
  destruct path as [|h1 [|h2 body]].
  - rewrite insert_from_xml_short by (simpl; lia).
    exists (Raise StopIteration), (mkFrame Open [] None false Absent d []), [].
    rewrite app_nil_r. split_and!; first [done | apply sublist_nil_l].
  - rewrite insert_from_xml_short by (simpl; lia).
    exists (Raise StopIteration), (mkFrame Open [] None false Absent d []), [].
    rewrite app_nil_r. split_and!; first [done | apply sublist_nil_l].
  - destruct (prepare (insert_sql self exist_ok)) as [msg|] eqn:Hprep.
    + rewrite (insert_from_xml_unprepared _ _ _ _ _ _ _ _ _ _ msg Hprep).
      eexists _, _, []. rewrite app_nil_r.
      split_and!; first [done | apply sublist_nil_l].
    + rewrite (insert_from_xml_drain _ _ _ _ _ _ _ _ _ _ Hprep).
      destruct (pass body (started d body)) as [[u|e] s'] eqn:Hpass.
      * pose proof (drain_appends _ _ _ _ Hpass) as (added & Hrows & Hsub).
        eexists _, _, added. split; [done|]. simpl in *. by rewrite Hrows.
      * pose proof (drain_appends _ _ _ _ Hpass) as (added & Hrows & Hsub).
        apply drain_invariants in Hpass as (_ & _ & _ & Hcomm & _).
        eexists _, _, added. by split_and!.
Qed.

(** X10. The first record line that does not parse decides how the call
    ends. When the record lines before it parse and the store takes or
    drops their rows, the call raises the exception of that line
    ([ParseError] from [ET.fromstring], [ValueError] from [int]); the lines
    after it are left unread, the rows of the lines before it are in the
    open transaction, not committed and not rolled back, the file stays
    open and nothing is printed. *)
Theorem first_unparsed_line_aborts d h1 h2 pre bad post exist_ok held dropped e :
  prepare (insert_sql self exist_ok) = None ->
  record_lines self pre = pre ->
  Forall (fun l => parses fromstring self filter_row l = true) pre ->
  feed check (rows d) (map values (yielded fromstring self filter_row pre))
    = Some (held, dropped) ->
  pull_rows_body fromstring self filter_row bad = Throw e ->
  exists s',
    insert_from_xml fromstring prepare check self filter_row d
      (h1 :: h2 :: pre ++ bad :: post) exist_ok = Some (Raise e, s') /\
    (e = ParseError \/ e = ValueError) /\
    it s' = post /\
    rows (db s') = held /\
    committed (db s') = committed d /\
    commits (db s') = commits d /\
    last_row s' = last (yielded fromstring self filter_row pre) /\
    fd s' = Open /\ stdout s' = [].
Proof.
  intros Hprep Hpre Hpar Hfeed Hbad.
  rewrite (insert_from_xml_drain _ _ _ _ _ _ _ _ _ _ Hprep).
  change (started d (pre ++ bad :: post))
    with (set_it (pre ++ bad :: post) (started d [])).
  rewrite drain_set_it.
  destruct (drain_prefix fromstring check self filter_row pre (bad :: post)
              (started d []) held dropped Hpre Hpar Hfeed)
    as (s1 & -> & Hrows & Hcomm & Hcnt & Hfd & Hcur & Hout & Hlast).
  simpl. rewrite Hbad. eexists. split; [done|].
  split; [by eapply pull_rows_body_throw|].
  simpl in *. split_and!; try done.
  rewrite Hlast. by destruct (last _).
Qed.

(** X13. The call writes to the standard output only when it raises an
    [Error] of the store, and then exactly the three lines of the [except]
    clause. A call that returns, or that raises [StopIteration],
    [ParseError] or [ValueError], has printed nothing; a dropped duplicate
    leaves no trace in the output. *)
Theorem prints_only_on_store_error d path exist_ok :
  exists r s',
    insert_from_xml fromstring prepare check self filter_row d path exist_ok
      = Some (r, s') /\
    stdout s' = match r with
                | Raise (Error _) => last_row_report (last_row s')
                | _ => []
                end.
Proof.
  destruct path as [|h1 [|h2 body]].
  - rewrite insert_from_xml_short by (simpl; lia). by eexists _, _.
  - rewrite insert_from_xml_short by (simpl; lia). by eexists _, _.
  - destruct (prepare (insert_sql self exist_ok)) as [msg|] eqn:Hprep.
    + rewrite (insert_from_xml_unprepared _ _ _ _ _ _ _ _ _ _ msg Hprep).
      by eexists _, _.
    + rewrite (insert_from_xml_drain _ _ _ _ _ _ _ _ _ _ Hprep).
      destruct (pass body (started d body)) as [[u|e] s'] eqn:Hpass;
        apply drain_invariants in Hpass as (_ & _ & _ & _ & Hr).
      * eexists _, _. split; [done|]. simpl. by destruct Hr.
      * eexists _, _. split; [done|]. by destruct e.
Qed.

(** Under OR IGNORE, on a store without foreign-key rejections, a batch
    never stops on an integrity violation. *)
Lemma executemany_rows_or_ignore fuel sql s r s' :
  or_ignore sql = true ->
  (forall held vals, check held vals <> Violation) ->
  executemany_rows fromstring check self filter_row fuel sql s = Some (r, s') ->
  r <> Raise IntegrityError.
Proof.
  intros Hor Hnv. revert s.
  induction fuel as [|fuel IH]; intros s; simpl; [done|].
  unfold next_data.
  pose proof (pull_rows_drain fromstring check self filter_row (it s) s) as Hp.
  destruct (pull_rows fromstring self filter_row (it s) s) as [[vals| |e] s1].
  - destruct (check (rows (db s1)) vals) as [| | |msg] eqn:Hc.
    + apply IH.
    + rewrite Hor. apply IH.
    + by destruct (Hnv _ _ Hc).
    + by intros [= <- <-].
  - by intros [= <- <-].
  - destruct Hp as [_ [-> | ->]]; by intros [= <- <-].
Qed.

(** X14. With [exist_ok] the statement carries OR IGNORE, and on a store
    that rejects no row on a foreign key the first batch insert never
    raises an integrity violation: a duplicate is passed over inside the
    batch, the whole file goes through a single call of [executemany], and
    the loop ends with the result of that one batch. *)
Theorem exist_ok_single_batch fuel s :
  (forall held vals, check held vals <> Violation) ->
  done s = false ->
  (length (it s) <= fuel)%nat ->
  exists r s',
    executemany fromstring prepare check self filter_row
      (S fuel) (insert_sql self true) s = Some (r, s') /\
    r <> Raise IntegrityError /\
    while_not_done fromstring prepare check self filter_row
      (S fuel) (insert_sql self true) s
      = Some (r, match r with
                 | Raise (Error _) => report s'
                 | _ => s'
                 end).
Proof.
  intros Hnv Hdone Hlen.
  cbn [while_not_done]. rewrite Hdone. unfold executemany.
  destruct (prepare (insert_sql self true)) as [msg|] eqn:Hprep.
  - by eexists _, _.
  - destruct (executemany_rows_drain fromstring check self filter_row
                (S fuel) (insert_sql self true) s) as (r & s' & Hr & Hm); [lia|].
    pose proof (executemany_rows_or_ignore _ _ _ _ _
                  (or_ignore_insert_sql self true) Hnv Hr) as Hne.
    rewrite Hr. exists r, s'. split; [done|]. split; [done|].
    destruct r as [[]|[| | | |msg]]; try done.
    destruct Hm as [_ Hd]. destruct fuel; simpl; by rewrite Hd.
Qed.

(** The filter comes after the parse and decides what is yielded. *)
Lemma pull_rows_body_filter f l :
  pull_rows_body fromstring self (Some f) l =
    match pull_rows_body fromstring self None l with
    | Yield r => match f r with
                 | Some r' => Yield r'
                 | None => Continue
                 end
    | t => t
    end.
Proof.
  unfold pull_rows_body.
  destruct (String.eqb _ _); [done|].
  destruct (fromstring _) as [root|]; [|done].
  by destruct (parse_row self root).
Qed.

Lemma parses_filter f l :
  parses fromstring self (Some f) l = parses fromstring self None l.
Proof.
  unfold parses. rewrite pull_rows_body_filter.
  destruct (pull_rows_body fromstring self None l) as [| |r|e]; try done.
  by destruct (f r).
Qed.

Lemma yielded_cons fr l lines :
  yielded fromstring self fr (l :: lines) =
    match pull_rows_body fromstring self fr l with
    | Yield r => r :: yielded fromstring self fr lines
    | _ => yielded fromstring self fr lines
    end.
Proof.
  unfold yielded. simpl.
  by destruct (pull_rows_body fromstring self fr l).
Qed.

Lemma yielded_filter f lines :
  yielded fromstring self (Some f) lines
    = omap f (yielded fromstring self None lines).
Proof.
  induction lines as [|l lines IH]; [done|].
  rewrite !yielded_cons, pull_rows_body_filter, IH.
  destruct (pull_rows_body fromstring self None l) as [| |r|e]; try done.
  change (omap f (r :: yielded fromstring self None lines))
    with (match f r with
          | Some r' => r' :: omap f (yielded fromstring self None lines)
          | None => omap f (yielded fromstring self None lines)
          end).
  by destruct (f r).
Qed.

(** X11. A filter is applied to every parsed row, once, in the order of the
    file, before anything reaches the store: for a well-formed file on a
    store without fatal errors, the rows fed to the store are the values of
    the rows that the filter returns (so a value that the filter stamps
    into a row, a [site_id] say, is the value stored), the rows for which it
    returns [None] are left out, and [last_row] is the last row that the
    filter returned. *)
Theorem filter_row_decides_rows f d h1 h2 body exist_ok held dropped :
  prepare (insert_sql self exist_ok) = None ->
  Forall (fun l => parses fromstring self None l = true) (record_lines self body) ->
  feed check (rows d)
    (map values (omap f (yielded fromstring self None (record_lines self body))))
    = Some (held, dropped) ->
  exists s',
    insert_from_xml fromstring prepare check self (Some f) d
      (h1 :: h2 :: body) exist_ok = Some (Ok (), s') /\
    rows (db s') = held /\
    committed (db s') = held /\
    last_row s'
      = last (omap f (yielded fromstring self None (record_lines self body))).
Proof.
  intros Hprep Hpar Hfeed.
  destruct (insert_from_xml_succeeds fromstring prepare check self (Some f)
              d h1 h2 body exist_ok held dropped Hprep)
    as (s' & Hload & Hrows & Hcomm & _ & _ & _ & _ & Hlast).
  - eapply Forall_impl; [exact Hpar|]. intros l Hl. by rewrite parses_filter.
  - by rewrite yielded_filter.
  - exists s'. rewrite yielded_filter in Hlast. by split_and!.
Qed.

End LoaderExtras.

(** ** Loading the same file again *)

Lemma pk_check_conflict_inv held vals :
  Store.pk_check held vals = Conflict ->
  Store.key vals ∈ map Store.key held.
Proof.
  unfold Store.pk_check. destruct (existsb _ held) eqn:He; [|done].
  intros _. apply existsb_exists in He as (r & Hr & Heq).
  apply value_eqb_eq in Heq. rewrite <- Heq.
  apply list_elem_of_In, in_map, Hr.
Qed.

(** What a table with a primary key makes of a batch: it fails on no row,
    keeps the keys it held, and holds the key of every row of the batch in
    the end. *)
Lemma feed_pk_keys held batch :
  exists held' dropped,
    feed Store.pk_check held batch = Some (held', dropped) /\
    (forall k, k ∈ map Store.key held -> k ∈ map Store.key held') /\
    (forall vals, vals ∈ batch -> Store.key vals ∈ map Store.key held').
Proof.
  revert held. induction batch as [|vals batch IH]; intros held; simpl.
  - exists held, O. split_and!; [done..|]. intros v Hv. by apply elem_of_nil in Hv.
  - destruct (Store.pk_check held vals) eqn:Hc.
    + destruct (IH (held ++ [vals])%list) as (held' & n & Hf & Hk & Hb).
      exists held', n. split; [done|].
      assert (Hk' : forall k, k ∈ map Store.key held -> k ∈ map Store.key held').
      { intros k Hin. apply Hk. rewrite map_app. apply elem_of_app. by left. }
      split; [done|]. intros v Hv. apply elem_of_cons in Hv as [-> | Hv].
      * apply Hk. rewrite map_app. apply elem_of_app. right. simpl. left.
      * by apply Hb.
    + destruct (IH held) as (held' & n & Hf & Hk & Hb). rewrite Hf.
      exists held', (S n). split; [done|]. split; [done|].
      intros v Hv. apply elem_of_cons in Hv as [-> | Hv].
      * by apply Hk, pk_check_conflict_inv.
      * by apply Hb.
    + unfold Store.pk_check in Hc. by destruct (existsb _ held).
    + unfold Store.pk_check in Hc. by destruct (existsb _ held).
Qed.

(** A batch whose keys are all held is dropped as a whole. *)
Lemma feed_pk_present held batch :
  (forall vals, vals ∈ batch -> Store.key vals ∈ map Store.key held) ->
  feed Store.pk_check held batch = Some (held, length batch).
Proof.
  induction batch as [|vals batch IH]; intros Hall; simpl; [done|].
  rewrite pk_check_conflict by (apply Hall; left).
  rewrite IH; [done|]. intros v Hv. apply Hall. by right.
Qed.

(** X12. Loading a file a second time into a table whose first column is
    its primary key changes nothing: for a well-formed file, the first call
    returns, and the second call on the connection that it leaves, with
    [exist_ok] or without, returns as well, drops every row as a duplicate,
    and commits a table that holds the same rows as after the first
    call. *)
Theorem reload_is_idempotent
    (fromstring : string -> option (gmap string string)) (self : Table)
    (filter_row : option (row -> option row)) d h1 h2 body exist_ok exist_ok' :
  Forall (fun l => parses fromstring self filter_row l = true)
    (record_lines self body) ->
  exists s1 s2,
    insert_from_xml fromstring Store.prepare_ok Store.pk_check self filter_row
      d (h1 :: h2 :: body) exist_ok = Some (Ok (), s1) /\
    insert_from_xml fromstring Store.prepare_ok Store.pk_check self filter_row
      (db s1) (h1 :: h2 :: body) exist_ok' = Some (Ok (), s2) /\
    rows (db s2) = rows (db s1) /\
    committed (db s2) = committed (db s1) /\
    commits (db s2) = S (commits (db s1)).
Proof.
  intros Hpar.
  destruct (feed_pk_keys (rows d)
              (map values (yielded fromstring self filter_row
                             (record_lines self body))))
    as (held & dropped & Hfeed & _ & Hkeys).
  destruct (insert_from_xml_succeeds fromstring Store.prepare_ok Store.pk_check
              self filter_row d h1 h2 body exist_ok held dropped eq_refl Hpar Hfeed)
    as (s1 & Hload1 & Hrows1 & Hcomm1 & _).
  destruct (insert_from_xml_succeeds fromstring Store.prepare_ok Store.pk_check
              self filter_row (db s1) h1 h2 body exist_ok' held
              (length (map values (yielded fromstring self filter_row
                                     (record_lines self body))))
              eq_refl Hpar)
    as (s2 & Hload2 & Hrows2 & Hcomm2 & Hcnt2 & _).
  { rewrite Hrows1. by apply feed_pk_present. }
  exists s1, s2. split_and!; [done..| | |done]; congruence.
Qed.

(** ** The closing tag and white space *)

Lemma lstrip_blank_app ws t :
  blank ws = true -> Py.lstrip (ws ++ t) = Py.lstrip t.
Proof.
  induction ws as [|c ws IH]; simpl; [done|].
  intros [Hc Hws]%andb_true_iff.
  change (String c ws ++ t) with (String c (ws ++ t)). simpl.
  rewrite Hc. by apply IH.
Qed.

Lemma rstrip_app_blank s ws :
  blank ws = true -> Py.rstrip (s ++ ws) = Py.rstrip s.
Proof.
  intros Hws. induction s as [|c s IH].
  - change (EmptyString ++ ws) with ws. simpl.
    induction ws as [|a ws IHws]; simpl; [done|].
    simpl in Hws. apply andb_true_iff in Hws as [Ha Hws].
    by rewrite IHws, Ha.
  - change (String c s ++ ws) with (String c (s ++ ws)). simpl. by rewrite IH.
Qed.

Lemma rstrip_last s c :
  Py.isspace c = false ->
  Py.rstrip (s ++ String c EmptyString) = s ++ String c EmptyString.
Proof.
  intros Hc. induction s as [|a s IH].
  - change (EmptyString ++ String c EmptyString) with (String c EmptyString).
    simpl. by rewrite Hc.
  - change (String a s ++ String c EmptyString)
      with (String a (s ++ String c EmptyString)).
    simpl. rewrite IH.
    destruct s; reflexivity.
Qed.

(** A text that starts and ends with characters that are no white space is
    what [strip] leaves of it with white space around. *)
Lemma strip_padded ws1 ws2 a m z :
  blank ws1 = true -> blank ws2 = true ->
  Py.isspace a = false -> Py.isspace z = false ->
  Py.strip (ws1 ++ String a (m ++ String z EmptyString) ++ ws2)
    = String a (m ++ String z EmptyString).
Proof.
  intros H1 H2 Ha Hz. unfold Py.strip.
  rewrite lstrip_blank_app by done.
  change (String a (m ++ String z EmptyString) ++ ws2)
    with (String a ((m ++ String z EmptyString) ++ ws2)).
  simpl. rewrite Ha.
  change (String a ((m ++ String z EmptyString) ++ ws2))
    with ((String a m ++ String z EmptyString) ++ ws2).
  rewrite rstrip_app_blank by done.
  by rewrite rstrip_last.
Qed.

(** X16. The closing tag is recognised with any white space around it
    (indentation, the newline at the end of the line): such a line ends the
    generator, whatever the table is called, is never given to
    [ET.fromstring], and no line from it on is a record line. *)
Theorem closing_tag_with_white_space
    (fromstring : string -> option (gmap string string)) (self : Table)
    (filter_row : option (row -> option row)) (ws1 ws2 : string)
    (rest : list string) :
  blank ws1 = true ->
  blank ws2 = true ->
  pull_rows_body fromstring self filter_row (ws1 ++ endtag self ++ ws2) = Break /\
  record_lines self ((ws1 ++ endtag self ++ ws2) :: rest) = [].
Proof.
  intros H1 H2.
  assert (Hstrip : Py.strip (ws1 ++ endtag self ++ ws2) = endtag self).
  { unfold endtag.
    change ("</" ++ name self ++ ">")
      with (String "<" (String "/" (name self) ++ String ">" EmptyString)).
    by apply strip_padded. }
  split.
  - apply pull_rows_body_break. rewrite Hstrip. apply String.eqb_refl.
  - simpl. by rewrite Hstrip, String.eqb_refl.
Qed.

(** ** The tables that the module declares *)

Lemma no_source_column attrib items (r : row) (i : nat) col typ :
  Forall2 (entry_of attrib) items r ->
  items !! i = Some (col, (None, typ)) ->
  r !! i = Some (col, VNone).
Proof.
  intros HF Hi.
  destruct (Forall2_lookup_l _ _ _ _ _ HF Hi) as ([k v] & Hr & Hk & Hv).
  simpl in *. by subst.
Qed.

Lemma parse_row_declared (self : Table) attrib :
  NoDup (map fst (schema self)) ->
  match parse_row self attrib with
  | Ok r => Forall2 (entry_of attrib) (schema self) r
  | Raise e => e = ValueError
  end.
Proof.
  intros Hnd. unfold parse_row.
  pose proof (parse_row_items_entries attrib (schema self) [] Hnd) as H.
  destruct (parse_row_items (schema self) attrib []) as [r|e].
  - by destruct H as (r' & -> & HF).
  - by destruct H.
Qed.

(** X15. The three tables that the module declares have distinct column
    names, so that for every record [parse_row] returns a row of 8 values
    for [sites], 14 for [posts] and 12 for [users], or raises [ValueError].
    In [posts] and [users] the column [site_id], the second one, has no
    source attribute: it is [None] in every row that [parse_row] returns,
    whatever the record holds, and only a filter can fill it. *)
Theorem declared_tables_rows (attrib : gmap string string) :
  NoDup (map fst (schema sites)) /\
  NoDup (map fst (schema posts)) /\
  NoDup (map fst (schema users)) /\
  match parse_row sites attrib with
  | Ok r => length (values r) = 8%nat
  | Raise e => e = ValueError
  end /\
  match parse_row posts attrib with
  | Ok r => length (values r) = 14%nat /\ r !! 1%nat = Some ("site_id", VNone)
  | Raise e => e = ValueError
  end /\
  match parse_row users attrib with
  | Ok r => length (values r) = 12%nat /\ r !! 1%nat = Some ("site_id", VNone)
  | Raise e => e = ValueError
  end.
Proof.
  assert (Hsites : NoDup (map fst (schema sites)))
    by (apply (bool_decide_unpack _); by vm_compute).
  assert (Hposts : NoDup (map fst (schema posts)))
    by (apply (bool_decide_unpack _); by vm_compute).
  assert (Husers : NoDup (map fst (schema users)))
    by (apply (bool_decide_unpack _); by vm_compute).
  pose proof (parse_row_declared sites attrib Hsites) as H1.
  pose proof (parse_row_declared posts attrib Hposts) as H2.
  pose proof (parse_row_declared users attrib Husers) as H3.
  split_and!; [done..| | |].
  - destruct (parse_row sites attrib) as [r|e]; [|done].
    unfold values. rewrite length_map. by rewrite <- (Forall2_length _ _ _ H1).
  - destruct (parse_row posts attrib) as [r|e]; [|done]. split.
    + unfold values. rewrite length_map. by rewrite <- (Forall2_length _ _ _ H2).
    + by eapply no_source_column.
  - destruct (parse_row users attrib) as [r|e]; [|done]. split.
    + unfold values. rewrite length_map. by rewrite <- (Forall2_length _ _ _ H3).
    + by eapply no_source_column.
Qed.

(** ** The further properties at work on examples *)

Lemma pk_check_never_violation held vals : Store.pk_check held vals <> Violation.
Proof. unfold Store.pk_check. by destruct (existsb _ held). Qed.

Lemma parse_row_reads_named_attributes_witness :
  (forall col attr typ,
     (col, (Some attr, typ)) ∈ schema sites ->
     Records.site !! attr = Samples.site_and_more !! attr) /\
  parse_row sites Records.site = parse_row sites Samples.site_and_more.
Proof.
  assert (Hagree : forall col attr typ,
            (col, (Some attr, typ)) ∈ schema sites ->
            Records.site !! attr = Samples.site_and_more !! attr).
  { intros col attr typ Hin. apply list_elem_of_In in Hin. simpl in Hin.
    repeat (destruct Hin as [Hin|Hin];
            [injection Hin as <- <- <-; vm_compute; reflexivity|]).
    destruct Hin. }
  split; [exact Hagree|].
  exact (parse_row_reads_named_attributes sites Records.site
           Samples.site_and_more Hagree).
Defined.

Lemma parse_row_missing_attributes_witness :
  NoDup (map fst (schema posts)) /\
  parse_row posts ∅ = Ok (map (fun item => (item.1, VNone)) (schema posts)).
Proof.
  assert (Hnd : NoDup (map fst (schema posts)))
    by (apply (bool_decide_unpack _); by vm_compute).
  split; [exact Hnd|].
  exact (proj1 (parse_row_missing_attributes posts ∅ Hnd
                  (fun col attr typ _ => lookup_empty attr))).
Defined.

Lemma insert_sql_matches_row_witness :
  parse_row sites Records.site = Ok Samples.site_row /\
  insert_sql sites true =
    "INSERT" ++ " OR IGNORE" ++ " INTO " ++ name sites
      ++ " (" ++ Py.join "," (map fst Samples.site_row) ++ ") VALUES ("
      ++ Py.join "," (map (fun _ => "?") (values Samples.site_row)) ++ ");".
Proof.
  assert (Hnd : NoDup (map fst (schema sites)))
    by (apply (bool_decide_unpack _); by vm_compute).
  assert (Hrow : parse_row sites Records.site = Ok Samples.site_row)
    by (vm_compute; reflexivity).
  split; [exact Hrow|].
  exact (proj1 (insert_sql_matches_row sites Records.site Samples.site_row true
                  Hnd Hrow)).
Defined.

Lemma lines_after_closing_tag_unread_witness :
  record_lines sites (drop 2 Examples.unclosed) = drop 2 Examples.unclosed /\
  exists r s1,
    insert_from_xml Xml.fromstring Store.prepare_ok Store.pk_check sites None
      Store.empty (Examples.unclosed ++ ["</sites>"]) false = Some (r, s1) /\
    insert_from_xml Xml.fromstring Store.prepare_ok Store.pk_check sites None
      Store.empty
      (Examples.unclosed ++ ["</sites>"; "<row Id='9' />"; "not xml"]) false
      = Some (r, set_it (it s1 ++ ["<row Id='9' />"; "not xml"]) s1).
Proof.
  assert (Hbody : record_lines sites (drop 2 Examples.unclosed)
                  = drop 2 Examples.unclosed) by (vm_compute; reflexivity).
  split; [exact Hbody|].
  exact (lines_after_closing_tag_unread Xml.fromstring Store.prepare_ok
           Store.pk_check sites None Store.empty Examples.declaration "<sites>"
           (drop 2 Examples.unclosed) "</sites>" ["<row Id='9' />"; "not xml"]
           false Hbody eq_refl).
Defined.

Lemma exist_ok_makes_no_difference_witness :
  insert_from_xml Xml.fromstring Store.prepare_ok Store.pk_check sites None
    Store.empty Examples.duplicate_key true
  = insert_from_xml Xml.fromstring Store.prepare_ok Store.pk_check sites None
      Store.empty Examples.duplicate_key false.
Proof.
  exact (exist_ok_makes_no_difference Xml.fromstring Store.prepare_ok
           Store.pk_check sites None Store.empty Examples.duplicate_key eq_refl).
Defined.

Lemma insert_from_xml_terminates_witness :
  (length Examples.duplicate_key < 7 + 2)%nat /\
  insert_from_xml_fuel Xml.fromstring Store.prepare_ok Store.pk_check sites None
    7 Store.empty Examples.duplicate_key false
  = insert_from_xml Xml.fromstring Store.prepare_ok Store.pk_check sites None
      Store.empty Examples.duplicate_key false.
Proof.
  assert (Hfuel : (length Examples.duplicate_key < 7 + 2)%nat) by (simpl; lia).
  split; [exact Hfuel|].
  exact (proj1 (insert_from_xml_terminates Xml.fromstring Store.prepare_ok
                  Store.pk_check sites None Store.empty Examples.duplicate_key
                  false 7 Hfuel)).
Defined.

Lemma first_unparsed_line_aborts_witness :
  pull_rows_body Xml.fromstring sites None
    "  <row Id='two' Url='b.example' Name='B' />" = Throw ValueError /\
  exists s',
    insert_from_xml Xml.fromstring Store.prepare_ok Store.pk_check sites None
      Store.empty Examples.bad_integer false = Some (Raise ValueError, s') /\
    it s' = ["  <row Id='3' Url='c.example' Name='C' />"; "</sites>"] /\
    rows (db s') = firstn 1 Examples.four_rows /\
    committed (db s') = [] /\
    commits (db s') = O.
Proof.
  assert (Hbad : pull_rows_body Xml.fromstring sites None
                   "  <row Id='two' Url='b.example' Name='B' />"
                 = Throw ValueError) by (vm_compute; reflexivity).
  split; [exact Hbad|].
  destruct (first_unparsed_line_aborts Xml.fromstring Store.prepare_ok
              Store.pk_check sites None Store.empty Examples.declaration "<sites>"
              ["  <row Id='1' Url='a.example' Name='A' />"]
              "  <row Id='two' Url='b.example' Name='B' />"
              ["  <row Id='3' Url='c.example' Name='C' />"; "</sites>"]
              false (firstn 1 Examples.four_rows) O ValueError)
    as (s' & Hload & _ & Hit & Hrows & Hcomm & Hcnt & _).
  - reflexivity.
  - vm_compute; reflexivity.
  - apply (bool_decide_unpack _). by vm_compute.
  - vm_compute; reflexivity.
  - exact Hbad.
  - exists s'. split; [exact Hload|]. split; [exact Hit|].
    split; [exact Hrows|]. split; [exact Hcomm|exact Hcnt].
Defined.

Lemma filter_row_decides_rows_witness :
  feed Store.pk_check []
    (map values (omap Samples.stamp
                   (yielded Xml.fromstring users None
                      (record_lines users (drop 2 Samples.users_file)))))
    = Some (Samples.stamped_rows, O) /\
  exists s',
    insert_from_xml Xml.fromstring Store.prepare_ok Store.pk_check users
      (Some Samples.stamp) Store.empty Samples.users_file false
      = Some (Ok (), s') /\
    rows (db s') = Samples.stamped_rows /\
    committed (db s') = Samples.stamped_rows.
Proof.
  assert (Hfeed : feed Store.pk_check (rows Store.empty)
                    (map values (omap Samples.stamp
                       (yielded Xml.fromstring users None
                          (record_lines users (drop 2 Samples.users_file)))))
                  = Some (Samples.stamped_rows, O)) by (vm_compute; reflexivity).
  split; [exact Hfeed|].
  destruct (filter_row_decides_rows Xml.fromstring Store.prepare_ok
              Store.pk_check users Samples.stamp Store.empty
              Examples.declaration "<users>" (drop 2 Samples.users_file) false
              Samples.stamped_rows O eq_refl)
    as (s' & Hload & Hrows & Hcomm & _).
  - apply (bool_decide_unpack _). by vm_compute.
  - exact Hfeed.
  - exists s'. split; [exact Hload|]. split; [exact Hrows|exact Hcomm].
Defined.

Lemma reload_is_idempotent_witness :
  Forall (fun l => parses Xml.fromstring sites None l = true)
    (record_lines sites (drop 2 Examples.duplicate_key)) /\
  exists s1 s2,
    insert_from_xml Xml.fromstring Store.prepare_ok Store.pk_check sites None
      Store.empty Examples.duplicate_key false = Some (Ok (), s1) /\
    insert_from_xml Xml.fromstring Store.prepare_ok Store.pk_check sites None
      (db s1) Examples.duplicate_key true = Some (Ok (), s2) /\
    rows (db s2) = rows (db s1) /\
    committed (db s2) = committed (db s1) /\
    commits (db s2) = S (commits (db s1)).
Proof.
  assert (Hpar : Forall (fun l => parses Xml.fromstring sites None l = true)
                   (record_lines sites (drop 2 Examples.duplicate_key))).
  { apply (bool_decide_unpack _). by vm_compute. }
  split; [exact Hpar|].
  exact (reload_is_idempotent Xml.fromstring sites None Store.empty
           Examples.declaration "<sites>" (drop 2 Examples.duplicate_key)
           false true Hpar).
Defined.

Lemma exist_ok_single_batch_witness :
  done Examples.at_loop = false /\
  exists r s',
    executemany Xml.fromstring Store.prepare_ok Store.pk_check sites None
      7 (insert_sql sites true) Examples.at_loop = Some (r, s') /\
    r <> Raise IntegrityError /\
    while_not_done Xml.fromstring Store.prepare_ok Store.pk_check sites None
      7 (insert_sql sites true) Examples.at_loop
      = Some (r, match r with
                 | Raise (Error _) => report s'
                 | _ => s'
                 end).
Proof.
  assert (Hdone : done Examples.at_loop = false) by reflexivity.
  assert (Hlen : (length (it Examples.at_loop) <= 6)%nat) by (simpl; lia).
  split; [exact Hdone|].
  exact (exist_ok_single_batch Xml.fromstring Store.prepare_ok Store.pk_check
           sites None 6 Examples.at_loop pk_check_never_violation Hdone Hlen).
Defined.

Lemma closing_tag_with_white_space_witness :
  blank "  " = true /\ blank Samples.newline = true /\
  pull_rows_body Xml.fromstring posts None
    ("  " ++ endtag posts ++ Samples.newline) = Break.
Proof.
  assert (H1 : blank "  " = true) by reflexivity.
  assert (H2 : blank Samples.newline = true) by reflexivity.
  split; [exact H1|]. split; [exact H2|].
  exact (proj1 (closing_tag_with_white_space Xml.fromstring posts None
                  "  " Samples.newline [] H1 H2)).
Defined.
